(** * Schema reconciliation and record store of the catalog tracker (db.py)

    A shallow embedding of [DatabaseTracker] from [src/db.py]: the schema
    registry, the column inspector, the schema reconciler
    ([ensure_table_columns], [migrate_table_schema]) and the record store
    ([get_table_data], [add_record], [delete_record]).

    The Python methods talk to SQLite through [sqlite3]; the part of the
    engine they use is modelled in module [Sqlite] below: tables with
    declared column types, identifier resolution, column affinity, the
    integer primary key and transactions as seen through Python's
    connection object. SQL text is represented by its abstract syntax,
    identifiers are ASCII strings. *)

From Stdlib Require Import Ascii String ZArith.
From stdpp Require Import base strings list gmap pretty.

Open Scope string_scope.
Open Scope list_scope.

(** ** Python strings *)

Module PyStr.

(** [ch.lower()] on an ASCII character. *)
Definition ascii_lower (c : ascii) : ascii :=
  let n := N_of_ascii c in
  if ((65 <=? n) && (n <=? 90))%N then ascii_of_N (n + 32) else c.

(** [ch.isalnum()] on an ASCII character. *)
Definition ascii_isalnum (c : ascii) : bool :=
  let n := N_of_ascii c in
  (((48 <=? n) && (n <=? 57)) || ((65 <=? n) && (n <=? 90))
   || ((97 <=? n) && (n <=? 122)))%N.

(** [s.lower()] *)
Fixpoint lower (s : string) : string :=
  match s with
  | EmptyString => EmptyString
  | String c r => String (ascii_lower c) (lower r)
  end.

(** [a in b] for two strings: [a] occurs in [b] as a substring. *)
Fixpoint contains (a b : string) : bool :=
  String.prefix a b ||
  match b with
  | EmptyString => false
  | String _ r => contains a r
  end.

(** Truth value of a string: the empty string is falsy. *)
Definition nonempty (s : string) : bool :=
  match s with EmptyString => false | String _ _ => true end.

End PyStr.

(** ** Python dictionaries

    A [dict] keeps its keys in insertion order; assigning to a key that is
    already present replaces the value and leaves the key where it is. *)

Module PyDict.

Section Dict.
Context {V : Type}.

Definition dict := list (string * V).

Fixpoint set (d : dict) (k : string) (v : V) : dict :=
  match d with
  | [] => [(k, v)]
  | (k', v') :: d' =>
      if String.eqb k' k then (k', v) :: d' else (k', v') :: set d' k v
  end.

Fixpoint get (d : dict) (k : string) : option V :=
  match d with
  | [] => None
  | (k', v') :: d' => if String.eqb k' k then Some v' else get d' k
  end.

(** [k in d] *)
Definition mem (d : dict) (k : string) : bool :=
  match get d k with Some _ => true | None => false end.

End Dict.

Arguments dict V : clear implicits.

(** [{key(x): x for x in l}] *)
Definition comprehension (key : string → string) (l : list string)
  : dict string :=
  fold_left (λ d x, set d (key x) x) l [].

End PyDict.

(** ** Column-name matching of the rebuild migration *)

Module Matching.
Import PyStr.

(** The nested [normalize] of [migrate_table_schema]. *)
Fixpoint normalize (col : string) : string :=
  match col with
  | EmptyString => EmptyString
  | String ch r =>
      if ascii_isalnum ch then String (ascii_lower ch) (normalize r)
      else normalize r
  end.

Definition alias_map : PyDict.dict string :=
  [ ("manifestid", "manifest_id");
    ("manifest", "manifest_id");
    ("md5sum", "md5");
    ("md5hash", "md5");
    ("crack", "crack_type") ].

(** Truth value of [mapped], which is [None] or a string. *)
Definition truthy (mapped : option string) : bool :=
  match mapped with
  | None => false
  | Some s => nonempty s
  end.

(** The [for norm_col, orig_col in existing_norm.items()] loop: the first
    entry that passes the test is assigned to [mapped] and the loop
    breaks; without such an entry [mapped] keeps its value. *)
Fixpoint fuzzy_loop (exp_norm : string) (items : list (string * string))
    (mapped : option string) : option string :=
  match items with
  | [] => mapped
  | (norm_col, orig_col) :: rest =>
      if nonempty exp_norm
         && (contains exp_norm norm_col || contains norm_col exp_norm)
      then Some orig_col
      else fuzzy_loop exp_norm rest mapped
  end.

(** The body of the loop over [expected_columns] that computes [mapped]
    for one expected name. [existing] is the set of actual column names
    in its iteration order, which is also the order of
    [existing_list = list(existing)]. *)
Definition map_column (existing : list string) (expected_name : string)
  : option string :=
  let existing_list := existing in
  let existing_lower := PyDict.comprehension lower existing_list in
  let existing_norm := PyDict.comprehension normalize existing_list in
  if bool_decide (expected_name ∈ existing) then
    Some expected_name
  else if PyDict.mem existing_lower (lower expected_name) then
    PyDict.get existing_lower (lower expected_name)
  else
    let exp_norm := normalize expected_name in
    if PyDict.mem existing_norm exp_norm then
      PyDict.get existing_norm exp_norm
    else
      let mapped :=
        match PyDict.get alias_map exp_norm with
        | Some target =>
            let alias_norm := normalize target in
            if PyDict.mem existing_norm alias_norm
            then PyDict.get existing_norm alias_norm
            else None
        | None => None
        end in
      if negb (truthy mapped)
      then fuzzy_loop exp_norm existing_norm mapped
      else mapped.

(** *** The five strategies, one by one, as the specification names them *)

Definition match_exact (existing : list string) (e : string) : option string :=
  if bool_decide (e ∈ existing) then Some e else None.

Definition match_case_insensitive (existing : list string) (e : string)
  : option string :=
  PyDict.get (PyDict.comprehension lower existing) (lower e).

Definition match_normalized (existing : list string) (e : string)
  : option string :=
  PyDict.get (PyDict.comprehension normalize existing) (normalize e).

Definition match_alias (existing : list string) (e : string) : option string :=
  match PyDict.get alias_map (normalize e) with
  | Some target =>
      PyDict.get (PyDict.comprehension normalize existing) (normalize target)
  | None => None
  end.

Definition match_fuzzy (existing : list string) (e : string) : option string :=
  snd <$>
    List.find
      (λ item, nonempty (normalize e)
               && (contains (normalize e) (fst item)
                   || contains (fst item) (normalize e)))
      (PyDict.comprehension normalize existing).

(** Try the strategies from left to right and stop at the first result. *)
Fixpoint first_success (strategies : list (list string → string → option string))
    (existing : list string) (e : string) : option string :=
  match strategies with
  | [] => None
  | s :: rest =>
      match s existing e with
      | Some c => Some c
      | None => first_success rest existing e
      end
  end.

Definition priority_order : list (list string → string → option string) :=
  [match_exact; match_case_insensitive; match_normalized; match_alias;
   match_fuzzy].

End Matching.

(** ** The SQLite engine, as far as the program uses it

    Scope of the model: ordinary tables whose columns carry a declared
    type, an optional NOT NULL and an optional [INTEGER PRIMARY KEY]
    marker; values are NULL, integers and text (what the program binds:
    [None], [int], [str]); no DEFAULT clauses, triggers, views, indexes or
    foreign keys. Table and column names are resolved without regard to
    ASCII case, as SQLite does. The order of [tbl_rows] is the order in
    which a scan of the table yields the rows. *)

Module Sqlite.
Import PyStr.

Inductive value : Type :=
| VNull
| VInt (z : Z)
| VText (s : string).

#[global] Instance value_eq_dec : EqDecision value.
Proof. solve_decision. Defined.

Definition row : Type := list value.

Record column : Type := Column {
  col_name : string;
  col_type : string;      (* declared type, as written in CREATE TABLE *)
  col_notnull : bool;
  col_pk : bool           (* INTEGER PRIMARY KEY: the column is the rowid *)
}.

Record table : Type := Table {
  tbl_cols : list column;
  tbl_rows : list row;
  tbl_seq : option Z      (* AUTOINCREMENT: largest rowid ever used *)
}.

(** A database maps the lower-cased table name to the table. *)
Abbreviation database := (gmap string table).

Inductive error : Type :=
| NoSuchTable
| TableExists
| DuplicateColumn
| NoSuchColumn
| ConstraintFailed
| DatatypeMismatch
| TransactionState
| BindingCount.

Inductive result (A : Type) : Type :=
| Ok (a : A)
| Raise (e : error).
Arguments Ok {A} a.
Arguments Raise {A} e.

(** What the embedding takes from its environment: SQLite's conversion of
    a value that is stored into (or compared with) a column of a given
    declared type, and the iteration order of a Python [set] of strings.
    The three equations are the documented behaviour of column affinity
    on values that already have the storage class of the column. *)
Class Runtime : Type := {
  affinity : string → value → value;
  affinity_null : ∀ ty, affinity ty VNull = VNull;
  affinity_text : ∀ s, affinity "TEXT" (VText s) = VText s;
  affinity_integer : ∀ z, affinity "INTEGER" (VInt z) = VInt z;
  set_order : list string → list string;
  set_order_perm : ∀ l, set_order l ≡ₚ l
}.

Definition table_key (name : string) : string := lower name.

Definition same_name (a b : string) : Prop := lower a = lower b.

#[global] Instance same_name_dec a b : Decision (same_name a b).
Proof. unfold same_name. apply _. Defined.

(** Position of the column an identifier resolves to. *)
Definition find_col (cols : list column) (name : string) : option nat :=
  fst <$> list_find (λ c, same_name (col_name c) name) cols.

(** The field of a row that an identifier resolves to. *)
Definition row_get (cols : list column) (r : row) (name : string)
  : option value :=
  match find_col cols name with
  | Some i => r !! i
  | None => None
  end.

Definition pk_index (cols : list column) : option nat :=
  fst <$> list_find (λ c, col_pk c = true) cols.

(** The rowids in use. *)
Definition ids (t : table) : list Z :=
  match pk_index (tbl_cols t) with
  | Some i =>
      omap (λ r : row, match r !! i with
                       | Some (VInt z) => Some z
                       | _ => None
                       end) (tbl_rows t)
  | None => []
  end.

(** The rowid of a row inserted without one: one more than the largest
    rowid in use, and with AUTOINCREMENT one more than the largest ever
    used. *)
Definition next_id (t : table) : Z :=
  match tbl_seq t with
  | Some s => 1 + foldr Z.max s (ids t)
  | None =>
      match ids t with
      | [] => 1
      | z :: zs => 1 + foldr Z.max z zs
      end
  end.

Definition is_null (v : value) : bool :=
  match v with VNull => true | _ => false end.

Section Engine.
Context `{Runtime}.

(** The value that ends up in column [c] when [v] is written to it. *)
Definition store_cell (t : table) (c : column) (v : value) : result value :=
  let v' := affinity (col_type c) v in
  if col_pk c then
    match v' with
    | VNull => Ok (VInt (next_id t))
    | VInt z =>
        if bool_decide (z ∈ ids t) then Raise ConstraintFailed
        else Ok (VInt z)
    | VText _ => Raise DatatypeMismatch
    end
  else if col_notnull c && is_null v' then Raise ConstraintFailed
  else Ok v'.

Fixpoint store_cells (t : table) (cols : list column) (vs : list value)
  : result row :=
  match cols, vs with
  | c :: cols', v :: vs' =>
      match store_cell t c v with
      | Ok x =>
          match store_cells t cols' vs' with
          | Ok xs => Ok (x :: xs)
          | Raise e => Raise e
          end
      | Raise e => Raise e
      end
  | _, _ => Ok []
  end.

(** The value an INSERT gives to column [c]: the one listed for it, or
    NULL when the column is not listed. *)
Definition assigned (assign : list (string * value)) (c : column) : value :=
  match list_find (λ a, same_name (fst a) (col_name c)) assign with
  | Some (_, a) => snd a
  | None => VNull
  end.

Definition new_seq (t : table) (r : row) : option Z :=
  match tbl_seq t, pk_index (tbl_cols t) with
  | Some s, Some i =>
      match r !! i with
      | Some (VInt z) => Some (Z.max s z)
      | _ => Some s
      end
  | s, _ => s
  end.

(** INSERT of one row given as (column, value) pairs. *)
Definition insert_row (t : table) (assign : list (string * value))
  : result table :=
  if forallb (λ a, bool_decide (is_Some (find_col (tbl_cols t) (fst a))))
             assign
  then
    match store_cells t (tbl_cols t) (assigned assign <$> tbl_cols t) with
    | Ok r => Ok (Table (tbl_cols t) (tbl_rows t ++ [r]) (new_seq t r))
    | Raise e => Raise e
    end
  else Raise NoSuchColumn.

Fixpoint insert_rows (t : table) (assigns : list (list (string * value)))
  : result table :=
  match assigns with
  | [] => Ok t
  | a :: rest =>
      match insert_row t a with
      | Ok t' => insert_rows t' rest
      | Raise e => Raise e
      end
  end.

(** A result column of a SELECT: a column reference or the literal NULL. *)
Inductive select_expr : Type :=
| SelColumn (name : string)
| SelNull.

Definition eval_select (cols : list column) (r : row) (e : select_expr)
  : result value :=
  match e with
  | SelNull => Ok VNull
  | SelColumn n =>
      match row_get cols r n with
      | Some v => Ok v
      | None => Raise NoSuchColumn
      end
  end.

Fixpoint eval_selects (cols : list column) (r : row) (es : list select_expr)
  : result (list value) :=
  match es with
  | [] => Ok []
  | e :: es' =>
      match eval_select cols r e with
      | Ok v =>
          match eval_selects cols r es' with
          | Ok vs => Ok (v :: vs)
          | Raise x => Raise x
          end
      | Raise x => Raise x
      end
  end.

Fixpoint select_rows (cols : list column) (rows : list row)
    (es : list select_expr) : result (list (list value)) :=
  match rows with
  | [] => Ok []
  | r :: rows' =>
      match eval_selects cols r es with
      | Ok vs =>
          match select_rows cols rows' es with
          | Ok vss => Ok (vs :: vss)
          | Raise x => Raise x
          end
      | Raise x => Raise x
      end
  end.

(** [PRAGMA table_info(t)]: one row (cid, name, type, notnull,
    dflt_value, pk) per column; no row for a table that does not
    exist. *)
Definition table_info_row (i : nat) (c : column) : row :=
  [VInt (Z.of_nat i); VText (col_name c); VText (col_type c);
   VInt (if col_notnull c then 1 else 0); VNull;
   VInt (if col_pk c then 1 else 0)].

Definition table_info (db : database) (t : string) : list row :=
  match db !! table_key t with
  | Some tb => imap table_info_row (tbl_cols tb)
  | None => []
  end.

(** [SELECT * FROM t] *)
Definition select_all (db : database) (t : string) : result (list row) :=
  match db !! table_key t with
  | Some tb => Ok (tbl_rows tb)
  | None => Raise NoSuchTable
  end.

(** [ALTER TABLE t RENAME TO new_name] *)
Definition alter_rename (db : database) (t new_name : string)
  : result database :=
  match db !! table_key t with
  | None => Raise NoSuchTable
  | Some tb =>
      match db !! table_key new_name with
      | Some _ => Raise TableExists
      | None => Ok (<[table_key new_name := tb]> (delete (table_key t) db))
      end
  end.

(** [ALTER TABLE t ADD COLUMN c ty]: the column is appended and is NULL
    in every existing row. *)
Definition alter_add_column (db : database) (t c ty : string)
  : result database :=
  match db !! table_key t with
  | None => Raise NoSuchTable
  | Some tb =>
      match find_col (tbl_cols tb) c with
      | Some _ => Raise DuplicateColumn
      | None =>
          Ok (<[table_key t :=
                 Table (tbl_cols tb ++ [Column c ty false false])
                       ((λ r, r ++ [VNull]) <$> tbl_rows tb)
                       (tbl_seq tb)]> db)
      end
  end.

(** A column definition of CREATE TABLE: name, declared type, NOT NULL. *)
Definition column_def : Type := string * string * bool.

Definition id_column : column := Column "id" "INTEGER" false true.

Definition def_column (d : column_def) : column :=
  Column d.1.1 d.1.2 d.2 false.

(** [CREATE TABLE [IF NOT EXISTS] t (id INTEGER PRIMARY KEY
    AUTOINCREMENT, defs)] *)
Definition create_table (db : database) (if_not_exists : bool) (t : string)
    (defs : list column_def) : result database :=
  match db !! table_key t with
  | Some _ => if if_not_exists then Ok db else Raise TableExists
  | None =>
      if bool_decide (NoDup (lower <$> ("id" :: ((λ d : column_def, d.1.1) <$> defs))))
      then Ok (<[table_key t :=
                  Table (id_column :: (def_column <$> defs)) [] (Some 0%Z)]> db)
      else Raise DuplicateColumn
  end.

(** [DROP TABLE t] *)
Definition drop_table (db : database) (t : string) : result database :=
  match db !! table_key t with
  | Some _ => Ok (delete (table_key t) db)
  | None => Raise NoSuchTable
  end.

(** [INSERT INTO t (cols) VALUES (vals)] *)
Definition insert_values (db : database) (t : string) (cols : list string)
    (vals : list value) : result database :=
  if bool_decide (length cols = length vals) then
    match db !! table_key t with
    | None => Raise NoSuchTable
    | Some tb =>
        match insert_row tb (zip cols vals) with
        | Ok tb' => Ok (<[table_key t := tb']> db)
        | Raise e => Raise e
        end
    end
  else Raise BindingCount.

(** [INSERT INTO t (cols) SELECT sel FROM src] *)
Definition insert_select (db : database) (t : string) (cols : list string)
    (sel : list select_expr) (src : string) : result database :=
  match db !! table_key src, db !! table_key t with
  | Some from, Some into =>
      if bool_decide (length cols = length sel) then
        match select_rows (tbl_cols from) (tbl_rows from) sel with
        | Ok vss =>
            match insert_rows into (zip cols <$> vss) with
            | Ok into' => Ok (<[table_key t := into']> db)
            | Raise e => Raise e
            end
        | Raise e => Raise e
        end
      else Raise BindingCount
  | _, _ => Raise NoSuchTable
  end.

(** The test [id = ?] on a row: the parameter takes the affinity of the
    column, and a NULL on either side never compares equal. *)
Definition id_matches (c : column) (stored : value) (param : value) : bool :=
  let p := affinity (col_type c) param in
  negb (is_null p) && bool_decide (stored = p).

(** [DELETE FROM t WHERE id = ?] *)
Definition delete_where_id (db : database) (t : string) (param : value)
  : result database :=
  match db !! table_key t with
  | None => Raise NoSuchTable
  | Some tb =>
      match list_find (λ c, same_name (col_name c) "id") (tbl_cols tb) with
      | None => Raise NoSuchColumn
      | Some (i, c) =>
          Ok (<[table_key t :=
                 Table (tbl_cols tb)
                       (List.filter
                          (λ r : row, negb (id_matches c (default VNull (r !! i)) param))
                          (tbl_rows tb))
                       (tbl_seq tb)]> db)
      end
  end.

End Engine.

End Sqlite.

(** ** Python's [sqlite3] connection and the control flow of the methods *)

Module Python.
Import Sqlite.

(** The statements the program passes to [cursor.execute]. *)
Inductive stmt : Type :=
| PragmaForeignKeys (on : bool)
| PragmaTableInfo (t : string)
| Begin
| Commit
| Rollback
| AlterTableRename (t new_name : string)
| AlterTableAddColumn (t c ty : string)
| CreateTable (if_not_exists : bool) (t : string) (defs : list column_def)
| InsertSelect (t : string) (cols : list string) (sel : list select_expr)
               (src : string)
| InsertValues (t : string) (cols : list string) (vals : list value)
| DropTable (t : string)
| DeleteWhereId (t : string) (id : value)
| SelectAll (t : string).

(** The lines the program prints. *)
Inductive message : Type :=
| MsgPostInitError (e : error)
| MsgAddedColumn (c t : string)
| MsgAddColumnFailed (c t : string) (e : error)
| MsgCouldNotRead (t : string) (e : error)
| MsgMigrated (t : string)
| MsgMigrationFailed (t : string) (e : error)
| MsgAddRecordError (e : error).

Inductive event : Type :=
| Exec (s : stmt)
| Printed (m : message).

(** The database file ([disk]), what the open connection sees ([work]),
    whether the connection is inside a transaction, and what has been
    executed and printed so far. *)
Record state : Type := State {
  disk : database;
  work : database;
  in_txn : bool;
  log : list event
}.

Definition Py (A : Type) : Type := state → result A * state.

#[global] Instance py_ret : MRet Py := λ A a st, (Ok a, st).

#[global] Instance py_bind : MBind Py := λ A B f m st,
  match m st with
  | (Ok a, st') => f a st'
  | (Raise e, st') => (Raise e, st')
  end.

Definition raise {A} (e : error) : Py A := λ st, (Raise e, st).

(** [try: m except Exception as e: handler(e)] *)
Definition try_except {A} (m : Py A) (handler : error → Py A) : Py A :=
  λ st,
  match m st with
  | (Ok a, st') => (Ok a, st')
  | (Raise e, st') => handler e st'
  end.

(** [try: m finally: fin] *)
Definition try_finally {A} (m : Py A) (fin : Py unit) : Py A :=
  λ st,
  match m st with
  | (r, st') =>
      match fin st' with
      | (Ok _, st'') => (r, st'')
      | (Raise e, st'') => (Raise e, st'')
      end
  end.

(** [for x in l: body(x)] *)
Fixpoint for_each {A} (l : list A) (body : A → Py unit) : Py unit :=
  match l with
  | [] => mret ()
  | x :: rest => body x;; for_each rest body
  end.

Definition print (m : message) : Py unit :=
  λ st, (Ok (), State (disk st) (work st) (in_txn st) (log st ++ [Printed m])).

(** [sqlite3.connect(self.db_path)]: a new connection sees the file. *)
Definition connect : Py unit :=
  λ st, (Ok (), State (disk st) (disk st) false (log st)).

(** [conn.close()]: what was not committed is lost. *)
Definition close : Py unit :=
  λ st, (Ok (), State (disk st) (disk st) false (log st)).

(** [conn.commit()]: commits the open transaction, if there is one. *)
Definition commit : Py unit :=
  λ st,
  if in_txn st then (Ok (), State (work st) (work st) false (log st))
  else (Ok (), st).

Section Execute.
Context `{Runtime}.

(** A statement that changes the database. Python opens a transaction
    before INSERT and DELETE when none is open ([implicit_begin]);
    outside a transaction the engine commits the statement at once.
    A statement that fails changes nothing. *)
Definition run_update (implicit_begin : bool)
    (f : database → result database) (st : state)
  : result (list row) * state :=
  let txn := in_txn st || implicit_begin in
  match f (work st) with
  | Ok w => (Ok [], State (if txn then disk st else w) w txn (log st))
  | Raise e => (Raise e, State (disk st) (work st) txn (log st))
  end.

Definition run_query (f : database → result (list row)) (st : state)
  : result (list row) * state :=
  (f (work st), st).

(** [cursor.execute(sql)] followed, for a query, by [cursor.fetchall()]. *)
Definition execute (s : stmt) : Py (list row) :=
  λ st0,
  let st := State (disk st0) (work st0) (in_txn st0) (log st0 ++ [Exec s]) in
  match s with
  | PragmaForeignKeys _ => (Ok [], st)
  | PragmaTableInfo t => run_query (λ db, Ok (table_info db t)) st
  | SelectAll t => run_query (λ db, select_all db t) st
  | Begin =>
      if in_txn st then (Raise TransactionState, st)
      else (Ok [], State (disk st) (work st) true (log st))
  | Commit =>
      if in_txn st then (Ok [], State (work st) (work st) false (log st))
      else (Raise TransactionState, st)
  | Rollback =>
      if in_txn st then (Ok [], State (disk st) (disk st) false (log st))
      else (Raise TransactionState, st)
  | AlterTableRename t n => run_update false (λ db, alter_rename db t n) st
  | AlterTableAddColumn t c ty =>
      run_update false (λ db, alter_add_column db t c ty) st
  | CreateTable ine t defs =>
      run_update false (λ db, create_table db ine t defs) st
  | DropTable t => run_update false (λ db, drop_table db t) st
  | InsertSelect t cols sel src =>
      run_update true (λ db, insert_select db t cols sel src) st
  | InsertValues t cols vals =>
      run_update true (λ db, insert_values db t cols vals) st
  | DeleteWhereId t id =>
      run_update true (λ db, delete_where_id db t id) st
  end.

End Execute.

(** Run a method on a database file: its result, the file afterwards and
    the events it produced. A connection that is still open when the
    method is left is discarded with its uncommitted changes. *)
Definition run {A} (m : Py A) (db : database)
  : result A * database * list event :=
  match m (State db db false []) with
  | (r, st) => (r, disk st, log st)
  end.

End Python.

(** ** class DatabaseTracker *)

Module DatabaseTracker.
Import PyStr Sqlite Python Matching.

(** The local [expected_schema] of [ensure_table_columns]. *)
Definition expected_schema : PyDict.dict (list (string * string)) :=
  [ ("builds",
     [ ("name", "TEXT"); ("manifest_id", "TEXT"); ("year", "INTEGER");
       ("season", "TEXT"); ("crack_type", "TEXT"); ("link", "TEXT");
       ("md5", "TEXT"); ("description", "TEXT") ]);
    ("tools",
     [ ("name", "TEXT"); ("version", "TEXT"); ("link", "TEXT");
       ("description", "TEXT") ]);
    ("cheats",
     [ ("name", "TEXT"); ("type", "TEXT"); ("link", "TEXT");
       ("description", "TEXT") ]);
    ("downloaders",
     [ ("name", "TEXT"); ("link", "TEXT"); ("description", "TEXT") ]);
    ("preserved",
     [ ("name", "TEXT"); ("link", "TEXT"); ("description", "TEXT") ]) ].

Definition catalog_tables : list string :=
  ["builds"; "tools"; "cheats"; "downloaders"; "preserved"].

(** The column lists of the INSERT statements of [add_record]. *)
Definition insert_columns (table_name : string) : list string :=
  if decide (table_name = "builds") then
    ["name"; "manifest_id"; "year"; "season"; "crack_type"; "link"; "md5";
     "description"]
  else if decide (table_name = "tools") then
    ["name"; "version"; "link"; "description"]
  else if decide (table_name = "cheats") then
    ["name"; "type"; "link"; "description"]
  else if decide (table_name = "downloaders") then
    ["name"; "link"; "description"]
  else if decide (table_name = "preserved") then
    ["name"; "link"; "description"]
  else [].

(** [while len(data) < 8: data.append("")] *)
Definition pad_builds (data : list value) : list value :=
  data ++ replicate (8 - length data) (VText "").

(** The name in column 1 of each [PRAGMA table_info] row. *)
Definition column_names (rows : list row) : list string :=
  omap (λ r : row, match r !! 1%nat with
                   | Some (VText n) => Some n
                   | _ => None
                   end) rows.

(** The head of the SELECT list for one expected column. *)
Definition select_expr_of (mapped : option string) : select_expr :=
  match mapped with
  | Some c => if nonempty c then SelColumn c else SelNull
  | None => SelNull
  end.

Section Methods.
Context `{Runtime}.

(** A Python [set] built from a list: its elements without repetition,
    in the set's iteration order. *)
Definition py_set (l : list string) : list string :=
  set_order (remove_dups l).

(** [a == b] on sets *)
Definition set_eqb (a b : list string) : bool :=
  bool_decide (a ⊆ b) && bool_decide (b ⊆ a).

Definition get_table_columns (table_name : string) : Py (list string) :=
  connect;;
  try_finally
    (rows ← execute (PragmaTableInfo table_name);
     mret (py_set (column_names rows)))
    close.

Definition migrate_table_schema (table_name : string)
    (expected_columns : list (string * string)) : Py unit :=
  r ← try_except
        (existing ← get_table_columns table_name; mret (Some existing))
        (λ e, print (MsgCouldNotRead table_name e);; mret None);
  match r with
  | None => mret ()
  | Some existing =>
      connect;;
      let temp_name := String.append table_name "_old_migrate" in
      try_finally
        (try_except
           (execute (PragmaForeignKeys false);;
            execute Begin;;
            execute (AlterTableRename table_name temp_name);;
            execute (CreateTable false table_name
                       ((λ c : string * string, (c.1, c.2, false))
                          <$> expected_columns));;
            let insert_cols := fst <$> expected_columns in
            let select_exprs :=
              (λ c : string * string,
                 select_expr_of (map_column existing c.1))
                <$> expected_columns in
            let '(insert_cols_sql, select_sql) :=
              if bool_decide ("id" ∈ existing)
              then ("id" :: insert_cols, SelColumn "id" :: select_exprs)
              else (insert_cols, select_exprs) in
            execute (InsertSelect table_name insert_cols_sql select_sql
                       temp_name);;
            execute (DropTable temp_name);;
            execute Commit;;
            print (MsgMigrated table_name))
           (λ e,
              try_except (execute Rollback;; mret ()) (λ _, mret ());;
              print (MsgMigrationFailed table_name e)))
        (try_except (execute (PragmaForeignKeys true);; mret ())
                    (λ _, mret ());;
         close)
  end.

(** The body of the loop of the additive branch of
    [ensure_table_columns], for one [(col_name, col_type)]. *)
Definition add_column_if_missing (table_name : string)
    (existing : list string) (c : string * string) : Py unit :=
  let col_name := c.1 in
  let col_type := c.2 in
  if bool_decide (col_name ∉ existing) then
    try_except
      (execute (AlterTableAddColumn table_name col_name col_type);;
       print (MsgAddedColumn col_name table_name))
      (λ ex, print (MsgAddColumnFailed col_name table_name ex))
  else mret ().

(** [for col_name, col_type in expected_schema[table_name]: ...] *)
Definition add_missing_columns (table_name : string) (existing : list string)
    (schema : list (string * string)) : Py unit :=
  for_each schema (add_column_if_missing table_name existing).

Definition ensure_table_columns (table_name : string) : Py unit :=
  match PyDict.get expected_schema table_name with
  | None => mret ()
  | Some schema =>
      let expected_cols := fst <$> schema in
      let expected_full_set := py_set ("id" :: expected_cols) in
      existing ← get_table_columns table_name;
      if set_eqb existing expected_full_set then mret ()
      else if bool_decide (py_set expected_cols ⊆ existing) then
        connect;;
        try_finally
          (add_missing_columns table_name existing schema;;
           commit)
          close
      else migrate_table_schema table_name schema
  end.

Definition init_database : Py unit :=
  connect;;
  execute (CreateTable true "builds"
             [ ("name", "TEXT", true); ("manifest_id", "TEXT", false);
               ("year", "INTEGER", false); ("season", "TEXT", false);
               ("crack_type", "TEXT", false); ("link", "TEXT", false);
               ("md5", "TEXT", false); ("description", "TEXT", false) ]);;
  execute (CreateTable true "tools"
             [ ("name", "TEXT", true); ("version", "TEXT", false);
               ("link", "TEXT", false); ("description", "TEXT", false) ]);;
  execute (CreateTable true "cheats"
             [ ("name", "TEXT", true); ("type", "TEXT", false);
               ("link", "TEXT", false); ("description", "TEXT", false) ]);;
  execute (CreateTable true "downloaders"
             [ ("name", "TEXT", true); ("link", "TEXT", false);
               ("description", "TEXT", false) ]);;
  execute (CreateTable true "preserved"
             [ ("name", "TEXT", true); ("link", "TEXT", false);
               ("description", "TEXT", false) ]);;
  commit;;
  close;;
  try_except
    (for_each catalog_tables ensure_table_columns)
    (λ e, print (MsgPostInitError e)).


Definition add_record (table_name : string) (data : list value) : Py bool :=
  try_except
    (try_except (ensure_table_columns table_name) (λ _, mret ());;
     connect;;
     (if decide (table_name = "builds") then
        let data := pad_builds data in
        execute (InsertValues "builds" (insert_columns "builds") data);;
        mret ()
      else if decide (table_name = "tools") then
        execute (InsertValues "tools" (insert_columns "tools") data);;
        mret ()
      else if decide (table_name = "cheats") then
        execute (InsertValues "cheats" (insert_columns "cheats") data);;
        mret ()
      else if decide (table_name = "downloaders") then
        execute (InsertValues "downloaders" (insert_columns "downloaders")
                   data);;
        mret ()
      else if decide (table_name = "preserved") then
        execute (InsertValues "preserved" (insert_columns "preserved")
                   data);;
        mret ()
      else mret ());;
     commit;;
     close;;
     mret true)
    (λ e, print (MsgAddRecordError e);; raise e).

Definition delete_record (table_name : string) (record_id : value)
  : Py unit :=
  connect;;
  execute (DeleteWhereId table_name record_id);;
  commit;;
  close.

End Methods.

End DatabaseTracker.

(** ** The field metadata of the forms ([form_fields] in [main]) *)

Module Forms.
Import Sqlite.

Record field : Type := Field {
  field_name : string;
  field_required : bool;
  field_number : bool     (* "type": "number" *)
}.

Definition form_fields (table_name : string) : list field :=
  if decide (table_name = "builds") then
    [ Field "name" true false; Field "manifest_id" false false;
      Field "year" false true; Field "season" false false;
      Field "crack_type" false false; Field "link" false false;
      Field "md5" false false; Field "description" false false ]
  else if decide (table_name = "tools") then
    [ Field "name" true false; Field "version" false false;
      Field "link" false false; Field "description" false false ]
  else if decide (table_name = "cheats") then
    [ Field "name" true false; Field "type" false false;
      Field "link" false false; Field "description" false false ]
  else if decide (table_name = "downloaders") then
    [ Field "name" true false; Field "link" false false;
      Field "description" false false ]
  else if decide (table_name = "preserved") then
    [ Field "name" true false; Field "link" false false;
      Field "description" false false ]
  else [].

(** A value as [save_record] produces it for a field: an [int] or [None]
    for a number field, a [str] for any other; a required field is
    neither [None] nor the empty string. *)
Definition field_ok (f : field) (v : value) : Prop :=
  (if field_number f then v = VNull ∨ ∃ z, v = VInt z else ∃ s, v = VText s)
  ∧ (field_required f = true → v ≠ VNull ∧ v ≠ VText "").


End Forms.

(** ** What the properties below observe *)

Module Observe.
Import Sqlite Python.

(** The statements among the events of a log, in order. *)
Definition executed (l : list event) : list stmt :=
  omap (λ ev, match ev with Exec s => Some s | Printed _ => None end) l.

(** The column names of a table, in the order of its definition; none
    for a table that does not exist. *)
Definition actual_columns (db : database) (t : string) : list string :=
  match db !! table_key t with
  | Some tb => col_name <$> tbl_cols tb
  | None => []
  end.

(** Row [r'] of a table with columns [cols'] holds, in every column that
    resolves in [cols], the value row [r] held there. *)
Definition row_keeps (cols cols' : list column) (r r' : row) : Prop :=
  ∀ c v, row_get cols r c = Some v → row_get cols' r' c = Some v.

(** Every row of [tb] is still there in [tb'], with its values. *)
Definition table_keeps_data (tb tb' : table) : Prop :=
  Forall2 (row_keeps (tbl_cols tb) (tbl_cols tb')) (tbl_rows tb) (tbl_rows tb').

(** [tb'] is [tb] with columns appended, and cells appended to each row. *)
Definition table_extends (tb tb' : table) : Prop :=
  (∃ cs, tbl_cols tb' = tbl_cols tb ++ cs)
  ∧ Forall2 (λ r r' : row, ∃ x, r' = r ++ x) (tbl_rows tb) (tbl_rows tb').

Definition db_extends (db db' : database) : Prop :=
  ∀ k, option_Forall2 table_extends (db !! k) (db' !! k).

(** No transaction is open and nothing is uncommitted. *)
Definition idle (st : state) : Prop :=
  in_txn st = false ∧ work st = disk st.

(** Two lists of column names with the same elements. *)
Definition same_columns (a b : list string) : Prop := a ⊆ b ∧ b ⊆ a.

(** *** The rebuild migration, step by step *)

Definition temp_name (table_name : string) : string :=
  String.append table_name "_old_migrate".

Definition migration_defs (expected : list (string * string))
  : list column_def :=
  (λ c : string * string, (c.1, c.2, false)) <$> expected.

(** The columns of the table that the migration creates. *)
Definition rebuilt_cols (expected : list (string * string)) : list column :=
  id_column :: (def_column <$> migration_defs expected).

(** The column list and the SELECT list of the copying INSERT. *)
Definition migration_insert_cols (existing : list string)
    (expected : list (string * string)) : list string :=
  if bool_decide ("id" ∈ existing) then "id" :: (fst <$> expected)
  else fst <$> expected.

Definition migration_select (existing : list string)
    (expected : list (string * string)) : list select_expr :=
  let select_exprs :=
    (λ c : string * string,
       DatabaseTracker.select_expr_of (Matching.map_column existing c.1))
      <$> expected in
  if bool_decide ("id" ∈ existing) then SelColumn "id" :: select_exprs
  else select_exprs.

(** The four statements of the migration: rename, create, copy, drop. *)
Definition migration_statements (existing : list string) (t : string)
    (expected : list (string * string)) : list stmt :=
  [ AlterTableRename t (temp_name t);
    CreateTable false t (migration_defs expected);
    InsertSelect t (migration_insert_cols existing expected)
      (migration_select existing expected) (temp_name t);
    DropTable (temp_name t) ].

Section Steps.
Context `{Runtime}.

(** What the four statements do to a database when each is applied to
    the result of the one before; the first failure is the result. *)
Definition migration_steps (existing : list string) (t : string)
    (expected : list (string * string)) (db : database) : result database :=
  match alter_rename db t (temp_name t) with
  | Raise e => Raise e
  | Ok d1 =>
      match create_table d1 false t (migration_defs expected) with
      | Raise e => Raise e
      | Ok d2 =>
          match insert_select d2 t (migration_insert_cols existing expected)
                  (migration_select existing expected) (temp_name t) with
          | Raise e => Raise e
          | Ok d3 => drop_table d3 (temp_name t)
          end
      end
  end.

End Steps.

(** *** Rows as the engine stores them *)

Section Stored.
Context `{Runtime}.

(** Row [r] is what an INSERT with the (column, value) pairs [assign]
    stores in a table with columns [cols]: an ordinary column holds the
    value assigned to it, converted by the affinity of its declared type;
    the integer primary key holds the integer assigned to it, when one
    is. *)
Definition stored_row (cols : list column) (assign : list (string * value))
    (r : row) : Prop :=
  length r = length cols
  ∧ ∀ j c, cols !! j = Some c →
      ∃ x, r !! j = Some x
           ∧ (col_pk c = false →
              x = affinity (col_type c) (assigned assign c))
           ∧ (col_pk c = true →
              ∀ z, affinity (col_type c) (assigned assign c) = VInt z →
                   x = VInt z).

End Stored.

(** *** What the rebuild copies *)

(** The old column whose values the migration copies into expected
    column [e]: the column the matching answers, unless that is [None] or
    the empty name, for which the SELECT list holds NULL. *)
Definition matched_column (existing : list string) (e : string)
  : option string :=
  match Matching.map_column existing e with
  | Some c => if PyStr.nonempty c then Some c else None
  | None => None
  end.

Section Migrated.
Context `{Runtime}.

(** Row [r'] of the rebuilt table against row [r] of the old one: every
    expected column with a matched old column holds the value [r] has in
    that column, as a column of the expected declared type stores it;
    every other expected column holds NULL. *)
Definition migrated_row (existing : list string)
    (old_cols new_cols : list column) (expected : list (string * string))
    (r r' : row) : Prop :=
  ∀ e ty, (e, ty) ∈ expected →
    match matched_column existing e with
    | Some c =>
        ∃ v, row_get old_cols r c = Some v
             ∧ row_get new_cols r' e = Some (affinity ty v)
    | None => row_get new_cols r' e = Some VNull
    end.


(** Row [r'] has the integer id of row [r], if [r] has one. *)
Definition keeps_id (old_cols new_cols : list column) (r r' : row) : Prop :=
  ∀ z, row_get old_cols r "id" = Some (VInt z) →
       row_get new_cols r' "id" = Some (VInt z).

End Migrated.

(** *** The record store *)

(** The values that [add_record] binds to its INSERT. *)
Definition record_values (table_name : string) (data : list value)
  : list value :=
  if decide (table_name = "builds") then DatabaseTracker.pad_builds data
  else data.

(** The declared type that goes with a form field. *)
Definition field_type (f : Forms.field) : string :=
  if Forms.field_number f then "INTEGER" else "TEXT".

(** Row [r] has the integer [z] in the column that [id] resolves to. *)
Definition has_id (cols : list column) (z : Z) (r : row) : Prop :=
  row_get cols r "id" = Some (VInt z).

#[global] Instance has_id_dec cols z r : Decision (has_id cols z r).
Proof. unfold has_id. apply _. Defined.




End Observe.

(** ** A concrete runtime

    SQLite's column affinity on NULL, integer and text values, for
    declared types of INTEGER, TEXT, BLOB and NUMERIC affinity: a TEXT
    column stores an integer as its decimal text, a numeric column stores
    text that spells an integer as that integer. (Of the text forms SQLite
    converts, only an optionally signed run of decimal digits is
    recognised here; floating-point values are outside the model.) The
    set iteration order is the order of insertion. *)

Module ConcreteRuntime.
Import PyStr Sqlite.

Inductive affinity_class : Type :=
| AffInteger | AffText | AffBlob | AffReal | AffNumeric.

(** The rules of "Determination Of Column Affinity", in their order. *)
Definition affinity_of (ty : string) : affinity_class :=
  let t := lower ty in
  if contains "int" t then AffInteger
  else if contains "char" t || contains "clob" t || contains "text" t
  then AffText
  else if contains "blob" t || negb (nonempty t) then AffBlob
  else if contains "real" t || contains "floa" t || contains "doub" t
  then AffReal
  else AffNumeric.

Definition digit_of (c : ascii) : option Z :=
  let n := N_of_ascii c in
  if ((48 <=? n) && (n <=? 57))%N then Some (Z.of_N (n - 48)) else None.

Fixpoint parse_digits (acc : Z) (s : string) : option Z :=
  match s with
  | EmptyString => Some acc
  | String c r =>
      match digit_of c with
      | Some d => parse_digits (10 * acc + d) r
      | None => None
      end
  end.

Definition parse_integer (s : string) : option Z :=
  match s with
  | EmptyString => None
  | String "-" (String _ _ as r) => Z.opp <$> parse_digits 0 r
  | String "+" (String _ _ as r) => parse_digits 0 r
  | _ => parse_digits 0 s
  end.

Definition sqlite_affinity (ty : string) (v : value) : value :=
  match affinity_of ty, v with
  | AffText, VInt z => VText (pretty z)
  | (AffInteger | AffNumeric | AffReal), VText s =>
      match parse_integer s with
      | Some z => VInt z
      | None => VText s
      end
  | _, _ => v
  end.

Definition runtime : Runtime := {|
  affinity := sqlite_affinity;
  affinity_null := λ ty,
    match affinity_of ty as a
      return match a, VNull with
             | AffText, VInt z => VText (pretty z)
             | (AffInteger | AffNumeric | AffReal), VText s =>
                 match parse_integer s with
                 | Some z => VInt z
                 | None => VText s
                 end
             | _, _ => VNull
             end = VNull
    with
    | AffInteger | AffText | AffBlob | AffReal | AffNumeric => eq_refl
    end;
  affinity_text := λ s, eq_refl;
  affinity_integer := λ z, eq_refl;
  set_order := λ l, l;
  set_order_perm := λ l, reflexivity l
|}.

End ConcreteRuntime.

(** ** Example databases *)

Module Examples.
Import Sqlite Python DatabaseTracker.

#[local] Existing Instance ConcreteRuntime.runtime.

Definition builds_schema : list (string * string) :=
  [ ("name", "TEXT"); ("manifest_id", "TEXT"); ("year", "INTEGER");
    ("season", "TEXT"); ("crack_type", "TEXT"); ("link", "TEXT");
    ("md5", "TEXT"); ("description", "TEXT") ].

Definition tools_schema : list (string * string) :=
  [ ("name", "TEXT"); ("version", "TEXT"); ("link", "TEXT");
    ("description", "TEXT") ].

(** The database file that [init_database] makes of an empty one. *)
Definition fresh_db : database := (run init_database ∅).1.2.

(** A tools table that has one column more than the registry expects,
    with one record. *)
Definition tools_with_notes : table :=
  Table
    [ id_column; Column "name" "TEXT" true false;
      Column "version" "TEXT" false false; Column "link" "TEXT" false false;
      Column "description" "TEXT" false false;
      Column "notes" "TEXT" false false ]
    [ [VInt 1; VText "hammer"; VText "1.0"; VText "http://tools/hammer";
       VText "a tool"; VText "kept in the shed"] ]
    (Some 1%Z).

Definition tools_with_notes_db : database := {[ "tools" := tools_with_notes ]}.

(** A builds table as an older schema had it: only id and name, with two
    records. *)
Definition old_builds : table :=
  Table
    [ id_column; Column "name" "TEXT" true false ]
    [ [VInt 1; VText "alpha"]; [VInt 3; VText "beta"] ]
    (Some 3%Z).

Definition old_builds_db : database := {[ "builds" := old_builds ]}.

(** A tools table of the current schema with one record, of id 1. *)
Definition one_tool : table :=
  Table
    [ id_column; Column "name" "TEXT" true false;
      Column "version" "TEXT" false false; Column "link" "TEXT" false false;
      Column "description" "TEXT" false false ]
    [ [VInt 1; VText "hammer"; VText "1.0"; VText "http://tools/hammer";
       VText "a tool"] ]
    (Some 1%Z).

Definition one_tool_db : database := {[ "tools" := one_tool ]}.

(** A record for the builds form. *)
Definition a_build : list value :=
  [ VText "Chapter 1"; VText "4499302"; VInt 2019; VText "S1";
    VText "none"; VText "http://builds/1"; VText "d41d8cd9"; VText "first" ].

End Examples.

(** ** Tables in the shape the program creates *)

Module Shapes.
Import Sqlite Forms Observe.

(** Column [col] is the column that the program creates for form field
    [f]: its name and declared type, not the primary key, and NOT NULL
    at most when the field is required. *)
Definition column_of_field (col : column) (f : field) : Prop :=
  col_name col = field_name f
  ∧ col_type col = field_type f
  ∧ col_pk col = false
  ∧ (col_notnull col = true → field_required f = true).

(** The columns of catalog table [t] as [init_database] or the rebuild
    creates them: id, then one column per form field, in order. *)
Definition created_shape (t : string) (cols : list column) : Prop :=
  ∃ rest, cols = id_column :: rest
          ∧ Forall2 column_of_field rest (form_fields t).



(** Every table of [db] is still a table of [db']. *)
Definition keeps_tables (db db' : database) : Prop :=
  ∀ k, is_Some (db !! k) → is_Some (db' !! k).

End Shapes.

(** ** The form of the user interface: [save_record] *)

Module SaveRecord.
Import PyDict Sqlite Forms.

(** What [save_record] does with the form: it calls [add_record] with
    the values, or it stops at a number field whose text is no number,
    or at a required field without value. *)
Inductive outcome : Type :=
  | CallsAddRecord (values : list value)
  | NotANumber (f : field)
  | IsRequired (f : field).

Section WithInt.

(** [int(s)] for a [str]: the integer, or nothing for [ValueError]. *)
Variable py_int : string → option Z.

(** The text of the control of a field: empty when the form has no
    control of that name or the control has no value. *)
Definition control_value (controls_by_name : dict (option string))
    (f : field) : string :=
  match get controls_by_name (field_name f) with
  | Some (Some v) => v
  | _ => ""
  end.

Definition append_value (v : value) (r : list value + field)
  : list value + field :=
  match r with
  | inl values => inl (v :: values)
  | inr f => inr f
  end.

(** The first loop: one value per field, until the text of a number
    field is no number. *)
Fixpoint read_values (controls_by_name : dict (option string))
    (fields : list field) : list value + field :=
  match fields with
  | [] => inl []
  | f :: fields' =>
      let value := control_value controls_by_name f in
      if field_number f then
        if bool_decide (value ≠ "") then
          match py_int value with
          | Some z => append_value (VInt z) (read_values controls_by_name fields')
          | None => inr f
          end
        else append_value VNull (read_values controls_by_name fields')
      else append_value (VText value) (read_values controls_by_name fields')
  end.

(** The second loop: the first required field whose value is [None] or
    the empty string. *)
Fixpoint first_missing (fields : list field) (values : list value)
  : option field :=
  match fields, values with
  | f :: fields', v :: values' =>
      if field_required f
         && (bool_decide (v = VNull) || bool_decide (v = VText ""))
      then Some f
      else first_missing fields' values'
  | _, _ => None
  end.

Definition save_record (controls_by_name : dict (option string))
    (fields : list field) : outcome :=
  match read_values controls_by_name fields with
  | inr f => NotANumber f
  | inl values =>
      match first_missing fields values with
      | Some f => IsRequired f
      | None => CallsAddRecord values
      end
  end.

(** The value read for a field: the text of its control, or for a
    number field the integer of that text, [None] for no text. *)
Definition value_read (controls : dict (option string)) (f : field)
    (v : value) : Prop :=
  if field_number f then
    (control_value controls f = "" ∧ v = VNull)
    ∨ (control_value controls f ≠ ""
       ∧ ∃ z, py_int (control_value controls f) = Some z ∧ v = VInt z)
  else v = VText (control_value controls f).

End WithInt.

End SaveRecord.

(** ** More example data *)

Module MoreExamples.
Import Sqlite Python DatabaseTracker Observe Examples.

(** A record for the tools form. *)
Definition a_tool : list value :=
  [ VText "saw"; VText "2.1"; VText "http://tools/saw"; VText "cuts" ].




(** The old builds table beside a table that an interrupted rebuild left
    under the temporary name. *)
Definition interrupted_db : database :=
  <[ "builds_old_migrate" := old_builds ]> old_builds_db.

(** The builds form as a user filled it in. *)
Definition filled_form : PyDict.dict (option string) :=
  [ ("name", Some "Chapter 1"); ("manifest_id", Some "4499302");
    ("year", Some "2019"); ("season", Some "S1");
    ("crack_type", Some "none"); ("link", Some "http://builds/1");
    ("md5", Some "d41d8cd9"); ("description", Some "first") ].

(** The builds form with a year that is no number. *)
Definition roman_year_form : PyDict.dict (option string) :=
  [ ("name", Some "Chapter 1"); ("manifest_id", None);
    ("year", Some "MMXIX"); ("season", None); ("crack_type", None);
    ("link", None); ("md5", None); ("description", None) ].

(** The tools form with nothing typed into it. *)
Definition untouched_form : PyDict.dict (option string) :=
  [ ("name", None); ("version", None); ("link", None);
    ("description", None) ].

End MoreExamples.

(** * Properties *)

(** ** Dictionaries *)

Module PyDictFacts.
Import PyDict.

Lemma mem_get {V} (d : dict V) k :
  mem d k = true ↔ is_Some (get d k).
Proof.
  unfold mem. destruct (get d k); split; intros Hx; eauto.
  - discriminate.
  - by destruct Hx.
Qed.

Lemma if_mem_get {V} (d : dict V) k (other : option V) :
  (if mem d k then get d k else other)
  = match get d k with Some v => Some v | None => other end.
Proof. unfold mem. by destruct (get d k). Qed.



Lemma elem_of_set {V} (d : dict V) k v k' v' :
  (k', v') ∈ set d k v → (k', v') ∈ d ∨ (k' = k ∧ v' = v).
Proof.
  induction d as [|[k0 v0] d IH]; simpl.
  - intros [= -> ->]%list_elem_of_singleton. by right.
  - destruct (String.eqb k0 k) eqn:E.
    + apply String.eqb_eq in E as ->.
      intros [Heq|Hin]%elem_of_cons.
      * right. by inversion Heq.
      * left. by right.
    + intros [Heq|Hin]%elem_of_cons.
      * left. rewrite Heq. by left.
      * destruct (IH Hin) as [?|?]; [left; by right | by right].
Qed.

Lemma comprehension_snoc key l x :
  comprehension key (l ++ [x]) = set (comprehension key l) (key x) x.
Proof. unfold comprehension. by rewrite fold_left_app. Qed.

(** Every item of [{key(x): x for x in l}] is [(key(x), x)] for an
    element [x] of [l]. *)
Lemma elem_of_comprehension key l k v :
  (k, v) ∈ comprehension key l → v ∈ l ∧ k = key v.
Proof.
  induction l as [|x l IH] using rev_ind.
  - intros Hin. by apply elem_of_nil in Hin.
  - rewrite comprehension_snoc. intros [Hin|[-> ->]]%elem_of_set.
    + destruct (IH Hin) as [? ?]. split; [|done]. set_solver.
    + split; [set_solver | done].
Qed.

Lemma get_elem_of {V} (d : dict V) k v : get d k = Some v → (k, v) ∈ d.
Proof.
  induction d as [|[k0 v0] d IH]; simpl; [done|].
  destruct (String.eqb k0 k) eqn:E.
  - apply String.eqb_eq in E as ->. intros [= ->]. by left.
  - intros Hg. right. by apply IH.
Qed.

Lemma get_comprehension_Some key l k v :
  get (comprehension key l) k = Some v → v ∈ l ∧ key v = k.
Proof.
  intros Hg%get_elem_of%elem_of_comprehension. naive_solver.
Qed.


End PyDictFacts.

(** ** Column-name matching *)

Module MatchingFacts.
Import PyStr PyDict PyDictFacts Matching.

Lemma normalize_nonempty c :
  nonempty (normalize c) = true → nonempty c = true.
Proof. by destruct c. Qed.

(** The loop with [mapped = None] is a search for the first item that
    passes the test. *)
Lemma fuzzy_loop_find exp_norm items :
  fuzzy_loop exp_norm items None
  = snd <$> List.find
      (λ item, nonempty exp_norm
               && (contains exp_norm (fst item) || contains (fst item) exp_norm))
      items.
Proof.
  induction items as [|[n o] items IH]; simpl; [done|].
  by destruct (nonempty exp_norm && _).
Qed.

Lemma match_exact_Some existing e c :
  match_exact existing e = Some c ↔ c = e ∧ e ∈ existing.
Proof.
  unfold match_exact. case_bool_decide; naive_solver.
Qed.

Lemma match_case_insensitive_Some existing e c :
  match_case_insensitive existing e = Some c →
  c ∈ existing ∧ lower c = lower e.
Proof. apply get_comprehension_Some. Qed.


Lemma match_normalized_Some existing e c :
  match_normalized existing e = Some c →
  c ∈ existing ∧ normalize c = normalize e.
Proof. apply get_comprehension_Some. Qed.


Lemma match_alias_Some existing e c :
  match_alias existing e = Some c →
  ∃ target, get alias_map (normalize e) = Some target
            ∧ c ∈ existing ∧ normalize c = normalize target.
Proof.
  unfold match_alias. destruct (get alias_map (normalize e)) as [t|]; [|done].
  intros Hg%get_comprehension_Some. eauto.
Qed.

Lemma alias_target_nonempty k target :
  get alias_map k = Some target → nonempty (normalize target) = true.
Proof.
  unfold alias_map. cbn [get].
  repeat case_match; intros Heq; simplify_eq; reflexivity.
Qed.

(** An alias match never yields the empty column name. *)
Lemma match_alias_truthy existing e c :
  match_alias existing e = Some c → truthy (Some c) = true.
Proof.
  intros (t & Ht & _ & Hn)%match_alias_Some. simpl.
  apply normalize_nonempty. rewrite Hn. by eapply alias_target_nonempty.
Qed.

Lemma match_fuzzy_Some existing e c :
  match_fuzzy existing e = Some c →
  c ∈ existing ∧ nonempty (normalize e) = true
  ∧ (contains (normalize e) (normalize c) = true
     ∨ contains (normalize c) (normalize e) = true).
Proof.
  unfold match_fuzzy.
  destruct (List.find _ _) as [[n o]|] eqn:Hf; [|done].
  intros [= <-]. apply find_some in Hf as [Hin Hp].
  apply list_elem_of_In, elem_of_comprehension in Hin as [Hin ->].
  simpl in Hp. apply andb_prop in Hp as [? ?%orb_prop]. done.
Qed.

(** Every strategy answers with an actual column of the old table. *)
Lemma map_column_elem_of existing e c :
  first_success priority_order existing e = Some c → c ∈ existing.
Proof.
  simpl.
  destruct (match_exact existing e) eqn:H1.
  { intros [= <-]. apply match_exact_Some in H1. naive_solver. }
  destruct (match_case_insensitive existing e) eqn:H2.
  { intros [= <-]. by apply match_case_insensitive_Some in H2 as [? _]. }
  destruct (match_normalized existing e) eqn:H3.
  { intros [= <-]. by apply match_normalized_Some in H3 as [? _]. }
  destruct (match_alias existing e) eqn:H4.
  { intros [= <-]. apply match_alias_Some in H4. naive_solver. }
  destruct (match_fuzzy existing e) eqn:H5; [|done].
  intros [= <-]. by apply match_fuzzy_Some in H5 as [? _].
Qed.


End MatchingFacts.

(** ** The connection and the column inspector *)

Module TrackerFacts.
Import PyStr PyDict PyDictFacts Sqlite Python Matching MatchingFacts
       DatabaseTracker Observe.

Ltac py_unfold :=
  unfold mbind, py_bind, mret, py_ret, try_except, try_finally, raise,
    connect, close, commit, print, execute, run_update, run_query in *.

Lemma executed_app l1 l2 : executed (l1 ++ l2) = executed l1 ++ executed l2.
Proof. unfold executed. by rewrite omap_app. Qed.

Lemma column_names_imap (g : nat → column → row) cols :
  (∀ i c, g i c !! 1%nat = Some (VText (col_name c))) →
  column_names (imap g cols) = col_name <$> cols.
Proof.
  revert g. induction cols as [|c cols IH]; intros g Hg; [done|].
  rewrite imap_cons. unfold column_names in *. simpl.
  rewrite Hg. f_equal. apply IH. intros i c'. apply Hg.
Qed.

Lemma column_names_table_info db t :
  column_names (table_info db t) = actual_columns db t.
Proof.
  unfold table_info, actual_columns. destruct (db !! table_key t); [|done].
  by apply column_names_imap.
Qed.

Lemma catalog_tables_schema t :
  t ∈ catalog_tables ↔ is_Some (get expected_schema t).
Proof.
  unfold catalog_tables, expected_schema. cbn [get]. split.
  - rewrite !elem_of_cons. intros Hin.
    destruct Hin as [->|[->|[->|[->|[->|Hin]]]]]; cbn; eauto.
    by apply elem_of_nil in Hin.
  - repeat case_match; intros [? ?]; simplify_eq;
      repeat match goal with
             | E : (_ =? _) = true |- _ => apply String.eqb_eq in E as <-
             end; set_solver.
Qed.

Lemma not_catalog_table_schema t :
  t ∉ catalog_tables → get expected_schema t = None.
Proof.
  rewrite catalog_tables_schema. by rewrite eq_None_not_Some.
Qed.

Section WithRuntime.
Context `{Runtime}.

Lemma elem_of_py_set l x : x ∈ py_set l ↔ x ∈ l.
Proof.
  unfold py_set. rewrite (set_order_perm (remove_dups l)).
  apply elem_of_remove_dups.
Qed.

Lemma py_set_subseteq l1 l2 : py_set l1 ⊆ py_set l2 ↔ l1 ⊆ l2.
Proof.
  split; intros Hs x Hx.
  - apply elem_of_py_set, Hs, elem_of_py_set, Hx.
  - apply elem_of_py_set, Hs, elem_of_py_set, Hx.
Qed.

Lemma set_eqb_py_set l1 l2 :
  set_eqb (py_set l1) (py_set l2) = true ↔ l1 ⊆ l2 ∧ l2 ⊆ l1.
Proof.
  unfold set_eqb. rewrite andb_true_iff, !bool_decide_eq_true.
  by rewrite !py_set_subseteq.
Qed.

Lemma get_table_columns_run t st :
  get_table_columns t st
  = (Ok (py_set (actual_columns (disk st) t)),
     State (disk st) (disk st) false
           (log st ++ [Exec (PragmaTableInfo t)])).
Proof.
  unfold get_table_columns. py_unfold. cbn.
  by rewrite column_names_table_info.
Qed.

End WithRuntime.

End TrackerFacts.

(** ** The additive branch of [ensure_table_columns] *)

Module AdditiveFacts.
Import PyStr PyDict PyDictFacts Sqlite Python Matching MatchingFacts
       DatabaseTracker Observe TrackerFacts.

Lemma table_extends_refl tb : table_extends tb tb.
Proof.
  split.
  - exists []. by rewrite app_nil_r.
  - apply Forall2_same_length_lookup_2; [done|].
    intros i r r' Hr Hr'. exists []. rewrite app_nil_r. congruence.
Qed.

Lemma table_extends_trans tb1 tb2 tb3 :
  table_extends tb1 tb2 → table_extends tb2 tb3 → table_extends tb1 tb3.
Proof.
  intros [[cs1 Hc1] Hr1] [[cs2 Hc2] Hr2]. split.
  - exists (cs1 ++ cs2). by rewrite Hc2, Hc1, app_assoc.
  - eapply Forall2_trans; [|done..].
    intros r1 r2 r3 [x ->] [y ->]. exists (x ++ y). by rewrite app_assoc.
Qed.

Lemma db_extends_refl db : db_extends db db.
Proof.
  intros k. destruct (db !! k); constructor. apply table_extends_refl.
Qed.

Lemma db_extends_trans db1 db2 db3 :
  db_extends db1 db2 → db_extends db2 db3 → db_extends db1 db3.
Proof.
  intros H12 H23 k. specialize (H12 k). specialize (H23 k).
  destruct H12; inversion H23; subst; constructor.
  by eapply table_extends_trans.
Qed.

Lemma find_col_app_l cols cs c i :
  find_col cols c = Some i → find_col (cols ++ cs) c = Some i.
Proof.
  unfold find_col. intros Hf.
  destruct (list_find _ cols) as [[j x]|] eqn:E; simplify_eq/=.
  by rewrite (list_find_app_l _ _ _ _ _ E).
Qed.

Lemma table_extends_keeps_data tb tb' :
  table_extends tb tb' → table_keeps_data tb tb'.
Proof.
  intros [[cs Hc] Hr]. unfold table_keeps_data. rewrite Hc.
  eapply Forall2_impl; [done|].
  intros r r' [x ->] c v. unfold row_get.
  destruct (find_col (tbl_cols tb) c) as [i|] eqn:E; [|done].
  rewrite (find_col_app_l _ _ _ _ E). apply lookup_app_l_Some.
Qed.

Lemma alter_add_column_extends db t c ty db' :
  alter_add_column db t c ty = Ok db' → db_extends db db'.
Proof.
  unfold alter_add_column. intros Ha.
  destruct (db !! table_key t) as [tb|] eqn:Et; [|done].
  destruct (find_col (tbl_cols tb) c); simplify_eq.
  intros k. destruct (decide (k = table_key t)) as [->|Hne].
  - rewrite lookup_insert_eq, Et. constructor. split; simpl; [by eexists|].
    apply Forall2_fmap_r, Forall_Forall2_diag, Forall_forall.
    intros r _. by eexists.
  - rewrite lookup_insert_ne by done. apply db_extends_refl.
Qed.

Section WithRuntime.
Context `{Runtime}.

Lemma add_column_if_missing_run t existing c st :
  idle st →
  ∃ st',
    add_column_if_missing t existing c st = (Ok (), st')
    ∧ idle st'
    ∧ executed (log st')
      = executed (log st)
        ++ (if decide (c.1 ∉ existing)
            then [AlterTableAddColumn t c.1 c.2] else [])
    ∧ db_extends (disk st) (disk st').
Proof.
  intros [Htxn Hwork]. unfold add_column_if_missing.
  destruct (decide (c.1 ∉ existing)) as [Hc|Hc].
  - rewrite bool_decide_true by done.
    py_unfold. cbn. rewrite Htxn. cbn.
    destruct (alter_add_column (work st) t c.1 c.2) as [w|e] eqn:Ea; cbn.
    + eexists. split; [done|]. cbn. split_and!; try done.
      * rewrite !executed_app. cbn. by rewrite app_nil_r.
      * rewrite <- Hwork. by eapply alter_add_column_extends.
    + eexists. split; [done|]. cbn. split_and!; try done.
      * rewrite !executed_app. cbn. by rewrite app_nil_r.
      * apply db_extends_refl.
  - rewrite bool_decide_false by done. exists st.
    rewrite app_nil_r. split_and!; try done. apply db_extends_refl.
Qed.

Lemma for_each_cons {A} (x : A) l (body : A → Py unit) st :
  for_each (x :: l) body st
  = match body x st with
    | (Ok _, st') => for_each l body st'
    | (Raise e, st') => (Raise e, st')
    end.
Proof. done. Qed.

(** The loop, from a state with no open transaction: it never raises,
    it executes one ALTER TABLE ADD COLUMN for each column of the schema
    that is not in [existing], in order, and nothing else; every table
    keeps its columns and rows, possibly with columns appended. *)
Lemma add_missing_columns_run t existing schema st :
  idle st →
  ∃ st',
    add_missing_columns t existing schema st = (Ok (), st')
    ∧ idle st'
    ∧ executed (log st')
      = executed (log st)
        ++ ((λ c : string * string, AlterTableAddColumn t c.1 c.2)
              <$> filter (λ c : string * string, c.1 ∉ existing) schema)
    ∧ db_extends (disk st) (disk st').
Proof.
  unfold add_missing_columns.
  revert st. induction schema as [|c schema IH]; intros st Hidle.
  - exists st. simpl. rewrite app_nil_r. split_and!; try done.
    apply db_extends_refl.
  - rewrite for_each_cons, filter_cons.
    destruct (add_column_if_missing_run t existing c st Hidle)
      as (st1 & -> & Hidle1 & Hlog1 & Hext1).
    destruct (IH st1 Hidle1) as (st' & -> & Hidle' & Hlog' & Hext').
    exists st'. split_and!; try done.
    + rewrite Hlog', Hlog1, <- app_assoc. f_equal.
      by destruct (decide (c.1 ∉ existing)).
    + by eapply db_extends_trans.
Qed.

End WithRuntime.

End AdditiveFacts.

(** ** [ensure_table_columns] outside the rebuild *)

Module EnsureFacts.
Import PyStr PyDict PyDictFacts Sqlite Python Matching MatchingFacts
       DatabaseTracker Observe TrackerFacts AdditiveFacts.

Section WithRuntime.
Context `{Runtime}.

Lemma bind_run {A B} (m : Py A) (f : A → Py B) st :
  (m ≫= f) st
  = match m st with
    | (Ok a, st') => f a st'
    | (Raise e, st') => (Raise e, st')
    end.
Proof. done. Qed.

(** The additive branch as a whole. *)
Lemma ensure_table_columns_additive_run t schema st :
  get expected_schema t = Some schema →
  fst <$> schema ⊆ actual_columns (disk st) t →
  ¬ same_columns (actual_columns (disk st) t) ("id" :: (fst <$> schema)) →
  ∃ st',
    ensure_table_columns t st = (Ok (), st')
    ∧ idle st'
    ∧ executed (log st')
      = executed (log st) ++ PragmaTableInfo t
        :: ((λ c : string * string, AlterTableAddColumn t c.1 c.2)
              <$> filter (λ c : string * string,
                            c.1 ∉ actual_columns (disk st) t) schema)
    ∧ db_extends (disk st) (disk st').
Proof.
  intros Hs Hsub Hne. unfold ensure_table_columns. rewrite Hs.
  rewrite bind_run, get_table_columns_run.
  destruct (set_eqb _ _) eqn:Heq.
  { apply set_eqb_py_set in Heq. by destruct Hne. }
  rewrite bool_decide_true by by apply py_set_subseteq.
  rewrite bind_run. unfold connect at 1. cbn [disk work in_txn log].
  unfold try_finally. rewrite bind_run.
  edestruct (add_missing_columns_run t (py_set (actual_columns (disk st) t))
               schema) as (st1 & -> & [Htxn Hwork] & Hlog & Hext);
    [done|].
  unfold commit, close. rewrite Htxn.
  eexists. split; [done|]. cbn [disk work in_txn log]. split_and!; try done.
  cbn [disk work in_txn log] in Hlog. rewrite Hlog, executed_app. cbn. rewrite <- app_assoc. cbn.
  do 3 f_equal. apply list_filter_iff. intros c.
  by rewrite elem_of_py_set.
Qed.


Lemma db_extends_keeps_data db db' t tb :
  db_extends db db' → db !! table_key t = Some tb →
  ∃ tb', db' !! table_key t = Some tb' ∧ table_keeps_data tb tb'.
Proof.
  intros Hext Ht. specialize (Hext (table_key t)). rewrite Ht in Hext.
  inversion Hext as [? tb' Hx|]; subst. exists tb'. split; [done|].
  by apply table_extends_keeps_data.
Qed.

(** When every column of the schema is in [existing], the loop does
    nothing at all. *)
Lemma add_missing_columns_nothing_missing t existing schema st :
  fst <$> schema ⊆ existing →
  add_missing_columns t existing schema st = (Ok (), st).
Proof.
  unfold add_missing_columns. induction schema as [|c schema IH]; [done|].
  intros Hsub. rewrite for_each_cons. unfold add_column_if_missing at 1.
  rewrite bool_decide_false by set_solver. cbn. apply IH. set_solver.
Qed.


(** C5. On the additive branch of [ensure_table_columns] every row of the
    table is still there afterwards, in its place, and holds in every
    column the table had before the value it held before. *)
Theorem ensure_table_columns_additive_keeps_data db t schema tb :
  get expected_schema t = Some schema →
  fst <$> schema ⊆ actual_columns db t →
  ¬ same_columns (actual_columns db t) ("id" :: (fst <$> schema)) →
  db !! table_key t = Some tb →
  ∃ db' events tb',
    run (ensure_table_columns t) db = (Ok (), db', events)
    ∧ db' !! table_key t = Some tb'
    ∧ table_keeps_data tb tb'.
Proof.
  intros Hs Hsub Hne Ht. unfold run.
  destruct (ensure_table_columns_additive_run t schema (State db db false [])
              Hs Hsub Hne) as (st' & -> & _ & _ & Hext).
  destruct (db_extends_keeps_data _ _ _ _ Hext Ht) as (tb' & ? & ?).
  by exists (disk st'), (log st'), tb'.
Qed.

(** On the additive branch no column is missing, so no ALTER TABLE is
    executed and the database file is left as it was. *)
Theorem ensure_table_columns_additive_is_noop db t schema :
  get expected_schema t = Some schema →
  fst <$> schema ⊆ actual_columns db t →
  ¬ same_columns (actual_columns db t) ("id" :: (fst <$> schema)) →
  run (ensure_table_columns t) db
  = (Ok (), db, [Exec (PragmaTableInfo t)]).
Proof.
  intros Hs Hsub Hne. unfold run, ensure_table_columns. rewrite Hs.
  rewrite bind_run, get_table_columns_run.
  destruct (set_eqb _ _) eqn:Heq.
  { apply set_eqb_py_set in Heq. by destruct Hne. }
  rewrite bool_decide_true by by apply py_set_subseteq.
  rewrite bind_run. unfold connect at 1. cbn [disk work in_txn log].
  unfold try_finally. rewrite bind_run.
  rewrite add_missing_columns_nothing_missing; [done|].
  intros c Hc. by apply elem_of_py_set, Hsub.
Qed.

(** C10. For a table name that is not a key of [expected_schema], that
    is, any name other than the five catalog tables,
    [ensure_table_columns] returns at once: it executes no statement, so
    it neither reads nor changes the database. *)
Theorem ensure_table_columns_unknown_table db t :
  t ∉ catalog_tables →
  run (ensure_table_columns t) db = (Ok (), db, []).
Proof.
  intros Ht. unfold run, ensure_table_columns.
  by rewrite (not_catalog_table_schema t Ht).
Qed.

(** C8. [add_record] with a table name other than the five catalog
    tables executes no statement, in particular no INSERT, leaves the
    database as it was and returns [True]. *)
Theorem add_record_unknown_table db t data :
  t ∉ catalog_tables →
  run (add_record t data) db = (Ok true, db, []).
Proof.
  intros Ht. unfold run, add_record, ensure_table_columns.
  rewrite (not_catalog_table_schema t Ht).
  unfold catalog_tables in Ht. rewrite !not_elem_of_cons in Ht.
  destruct Ht as (? & ? & ? & ? & ? & _).
  repeat (destruct (decide _) as [?|_]; [done|]).
  done.
Qed.

End WithRuntime.

End EnsureFacts.

(** ** The engine: INSERT and SELECT *)

Module EngineFacts.
Import PyStr Sqlite Python Observe.

Lemma find_col_Some cols name i :
  find_col cols name = Some i ↔
  ∃ c, cols !! i = Some c ∧ same_name (col_name c) name
       ∧ ∀ j c', cols !! j = Some c' → (j < i)%nat →
                 ¬ same_name (col_name c') name.
Proof.
  unfold find_col. split.
  - intros Hf. destruct (list_find _ cols) as [[j c]|] eqn:E; simplify_eq/=.
    apply list_find_Some in E. naive_solver.
  - intros (c & Hc & Hn & Hlt).
    assert (list_find (λ c, same_name (col_name c) name) cols = Some (i, c))
      as ->; [|done].
    apply list_find_Some. naive_solver.
Qed.

(** In a table whose column names differ pairwise, case aside, a name
    resolves to the one column that bears it. *)
Lemma find_col_unique cols q c name :
  NoDup (lower <$> (col_name <$> cols)) →
  cols !! q = Some c → same_name (col_name c) name →
  find_col cols name = Some q.
Proof.
  intros Hnd Hq Hname. apply find_col_Some. exists c. split_and!; [done..|].
  intros j c' Hj Hlt Hname'.
  assert (j = q); [|lia].
  eapply NoDup_lookup; [exact Hnd|..].
  - rewrite !list_lookup_fmap, Hj. done.
  - rewrite !list_lookup_fmap, Hq. simpl. unfold same_name in *. congruence.
Qed.

Section WithRuntime.
Context `{Runtime}.

Lemma assigned_zip icols vs c p n v :
  NoDup (lower <$> icols) →
  icols !! p = Some n → vs !! p = Some v → same_name n (col_name c) →
  assigned (zip icols vs) c = v.
Proof.
  intros Hnd Hn Hv Hname. unfold assigned.
  assert (list_find (λ a : string * value, same_name a.1 (col_name c))
            (zip icols vs) = Some (p, (n, v))) as ->; [|done].
  apply list_find_Some. split_and!.
  - by apply lookup_zip_Some.
  - done.
  - intros j [n' v'] [Hj _]%lookup_zip_Some Hlt Hname'. simpl in *.
    assert (j = p); [|lia].
    eapply NoDup_lookup; [exact Hnd|..].
    + by rewrite list_lookup_fmap, Hj.
    + rewrite list_lookup_fmap, Hn. simpl. unfold same_name in *. congruence.
Qed.


Lemma store_cell_plain t c v x :
  store_cell t c v = Ok x → col_pk c = false →
  x = affinity (col_type c) v.
Proof.
  unfold store_cell. intros Hs Hpk. rewrite Hpk in Hs.
  destruct (col_notnull c && _); by simplify_eq.
Qed.

Lemma store_cell_pk t c v x z :
  store_cell t c v = Ok x → col_pk c = true →
  affinity (col_type c) v = VInt z → x = VInt z.
Proof.
  unfold store_cell. intros Hs Hpk Hz. rewrite Hpk, Hz in Hs.
  case_bool_decide; by simplify_eq.
Qed.

Lemma store_cells_lookup t cols vs r :
  length vs = length cols →
  store_cells t cols vs = Ok r →
  length r = length cols
  ∧ ∀ j c v, cols !! j = Some c → vs !! j = Some v →
      ∃ x, store_cell t c v = Ok x ∧ r !! j = Some x.
Proof.
  revert vs r. induction cols as [|c cols IH]; intros [|v vs] r Hlen Hs;
    simplify_eq/=; [done|].
  destruct (store_cell t c v) as [x|] eqn:Ex; [|done].
  destruct (store_cells t cols vs) as [xs|] eqn:Exs; simplify_eq.
  destruct (IH vs xs) as [Hl Hj]; [done..|]. split; [simpl; lia|].
  intros [|j] c' v' Hc Hv; simplify_eq/=; eauto.
Qed.

Lemma insert_row_stored tb assign tb' :
  insert_row tb assign = Ok tb' →
  tbl_cols tb' = tbl_cols tb
  ∧ ∃ r, tbl_rows tb' = tbl_rows tb ++ [r]
         ∧ stored_row (tbl_cols tb) assign r.
Proof.
  unfold insert_row. destruct (forallb _ _); [|done].
  destruct (store_cells _ _ _) as [r|] eqn:Es; [|done].
  intros [= <-]. split; [done|]. exists r. split; [done|].
  apply store_cells_lookup in Es as [Hl Hj]; [|by rewrite length_fmap].
  split; [done|]. intros j c Hc.
  destruct (Hj j c (assigned assign c)) as (x & Hx & Hr);
    [done|by rewrite list_lookup_fmap, Hc|].
  exists x. split_and!; [done|..].
  - intros. by eapply store_cell_plain.
  - intros. by eapply store_cell_pk.
Qed.


Lemma insert_rows_stored tb assigns tb' :
  insert_rows tb assigns = Ok tb' →
  tbl_cols tb' = tbl_cols tb
  ∧ ∃ rs, tbl_rows tb' = tbl_rows tb ++ rs
          ∧ Forall2 (stored_row (tbl_cols tb)) assigns rs.
Proof.
  revert tb. induction assigns as [|a assigns IH]; intros tb; simpl.
  - intros [= <-]. split; [done|]. exists []. by rewrite app_nil_r.
  - destruct (insert_row tb a) as [tb1|] eqn:E1; [|done]. intros Hrest.
    apply insert_row_stored in E1 as (Hc1 & r & Hr1 & Hs1).
    apply IH in Hrest as (Hc & rs & Hrs & Hall).
    split; [congruence|]. exists (r :: rs). split.
    + by rewrite Hrs, Hr1, <- app_assoc.
    + constructor; [done|]. by rewrite <- Hc1.
Qed.

Lemma eval_selects_Forall2 cols r es vs :
  eval_selects cols r es = Ok vs →
  Forall2 (λ e v, eval_select cols r e = Ok v) es vs.
Proof.
  revert vs. induction es as [|e es IH]; intros vs; simpl.
  - intros [= <-]. constructor.
  - destruct (eval_select cols r e) as [v|] eqn:Ev; [|done].
    destruct (eval_selects cols r es) as [vs'|]; [|done].
    intros [= <-]. constructor; auto.
Qed.

Lemma select_rows_Forall2 cols rows es vss :
  select_rows cols rows es = Ok vss →
  Forall2 (λ r vs, eval_selects cols r es = Ok vs) rows vss.
Proof.
  revert vss. induction rows as [|r rows IH]; intros vss; simpl.
  - intros [= <-]. constructor.
  - destruct (eval_selects cols r es) as [vs|] eqn:Ev; [|done].
    destruct (select_rows cols rows es) as [vss'|]; [|done].
    intros [= <-]. constructor; auto.
Qed.

End WithRuntime.

End EngineFacts.

(** ** The rebuild migration: control flow and transaction *)

Module MigrateRun.
Import PyStr PyDict PyDictFacts Sqlite Python Matching MatchingFacts
       DatabaseTracker Observe TrackerFacts AdditiveFacts EnsureFacts.

Section WithRuntime.
Context `{Runtime}.

(** [migrate_table_schema] from any state. When the four statements all
    succeed the file holds their result and the events are those of a
    committed migration; when one of them fails the file is what it was
    and the events end with the rollback. *)
Lemma migrate_table_schema_run t expected st :
  let existing := py_set (actual_columns (disk st) t) in
  ∃ evs,
    migrate_table_schema t expected st
    = (Ok (),
       let d := match migration_steps existing t expected (disk st) with
                | Ok d => d
                | Raise _ => disk st
                end in
       State d d false (log st ++ evs))
    ∧ match migration_steps existing t expected (disk st) with
      | Ok _ =>
          evs = [Exec (PragmaTableInfo t); Exec (PragmaForeignKeys false);
                 Exec Begin]
                ++ (Exec <$> migration_statements existing t expected)
                ++ [Exec Commit; Printed (MsgMigrated t);
                    Exec (PragmaForeignKeys true)]
      | Raise e =>
          ∃ k, (1 ≤ k ≤ 4)%nat
            ∧ evs = [Exec (PragmaTableInfo t);
                     Exec (PragmaForeignKeys false); Exec Begin]
                    ++ (Exec <$> take k (migration_statements existing t expected))
                    ++ [Exec Rollback; Printed (MsgMigrationFailed t e);
                        Exec (PragmaForeignKeys true)]
      end.
Proof.
  intros existing. unfold migrate_table_schema.
  rewrite bind_run. unfold try_except at 1.
  rewrite bind_run, get_table_columns_run. fold existing.
  cbn [mret py_ret]. rewrite bind_run. unfold connect at 1.
  cbn [disk work in_txn log].
  unfold migration_steps, migration_statements, migration_insert_cols,
    migration_select, migration_defs, temp_name.
  destruct (bool_decide ("id" ∈ existing)).
  all: py_unfold; cbn [disk work in_txn log orb].
  all: destruct (alter_rename _ _ _) as [d1|e1];
         cbn [disk work in_txn log orb].
  all: try (eexists; split; [rewrite <- !app_assoc; reflexivity|];
            exists 1%nat; split; [lia|reflexivity]).
  all: destruct (create_table _ _ _ _) as [d2|e2];
         cbn [disk work in_txn log orb].
  all: try (eexists; split; [rewrite <- !app_assoc; reflexivity|];
            exists 2%nat; split; [lia|reflexivity]).
  all: destruct (insert_select _ _ _ _ _) as [d3|e3];
         cbn [disk work in_txn log orb].
  all: try (eexists; split; [rewrite <- !app_assoc; reflexivity|];
            exists 3%nat; split; [lia|reflexivity]).
  all: destruct (drop_table _ _) as [d4|e4];
         cbn [disk work in_txn log orb].
  all: try (eexists; split; [rewrite <- !app_assoc; reflexivity|];
            exists 4%nat; split; [lia|reflexivity]).
  all: eexists; split; [rewrite <- !app_assoc; reflexivity|reflexivity].
Qed.

End WithRuntime.

End MigrateRun.

(** ** The rebuild migration: what ends up in the table *)

Module MigrateFacts.
Import PyStr PyDict PyDictFacts Sqlite Python Matching MatchingFacts
       DatabaseTracker Observe TrackerFacts AdditiveFacts EnsureFacts
       EngineFacts MigrateRun.

Lemma lower_append a b :
  lower (String.append a b) = String.append (lower a) (lower b).
Proof. induction a as [|c a IH]; simpl; [done|]. by rewrite IH. Qed.

Lemma append_nonempty_ne a b : nonempty b = true → String.append a b ≠ a.
Proof.
  intros Hb. induction a as [|c a IH]; simpl.
  - by destruct b.
  - intros [= Heq]. by apply IH.
Qed.

Lemma temp_key_ne t : table_key (temp_name t) ≠ table_key t.
Proof.
  unfold table_key, temp_name. rewrite lower_append.
  by apply append_nonempty_ne.
Qed.

Lemma select_expr_of_matched existing e :
  select_expr_of (map_column existing e)
  = match matched_column existing e with
    | Some c => SelColumn c
    | None => SelNull
    end.
Proof.
  unfold select_expr_of, matched_column.
  destruct (map_column existing e) as [c|]; [|done]. by destruct (nonempty c).
Qed.

Section WithRuntime.
Context `{Runtime}.

(** A migration whose four statements succeed: the table existed, the
    temporary name was free, the expected names and id differ pairwise,
    and the rebuilt table, which replaces the old one in an otherwise
    unchanged database, is the new empty table after the INSERT of one
    row per old row. *)
Lemma migration_steps_Ok existing t expected db d :
  migration_steps existing t expected db = Ok d →
  ∃ old vss new,
    db !! table_key t = Some old
    ∧ db !! table_key (temp_name t) = None
    ∧ NoDup (lower <$> ("id" :: (fst <$> expected)))
    ∧ select_rows (tbl_cols old) (tbl_rows old)
        (migration_select existing expected) = Ok vss
    ∧ insert_rows
        (Table (id_column :: (def_column <$> migration_defs expected))
               [] (Some 0%Z))
        (zip (migration_insert_cols existing expected) <$> vss) = Ok new
    ∧ d = <[table_key t := new]> db.
Proof.
  unfold migration_steps, alter_rename, create_table, insert_select,
    drop_table.
  pose proof (temp_key_ne t) as Hne.
  destruct (db !! table_key t) as [old|] eqn:Eold; [|done].
  destruct (db !! table_key (temp_name t)) eqn:Etmp; [done|].
  rewrite lookup_insert_ne, lookup_delete_eq by done.
  case_bool_decide as Hnd; [|done].
  rewrite lookup_insert_ne, lookup_insert_eq by done.
  rewrite lookup_insert_eq.
  case_bool_decide; [|done].
  destruct (select_rows _ _ _) as [vss|] eqn:Esel; [|done].
  destruct (insert_rows _ _) as [new|] eqn:Eins; [|done].
  rewrite lookup_insert_ne, lookup_insert_ne, lookup_insert_eq by done.
  intros [= <-]. exists old, vss, new. split_and!; try done.
  - revert Hnd. unfold migration_defs. rewrite <- list_fmap_compose.
    by intros Hnd.
  - apply map_eq. intros k.
    destruct (decide (k = table_key (temp_name t))) as [->|Hk1].
    { rewrite lookup_delete_eq, lookup_insert_ne by done. done. }
    rewrite lookup_delete_ne by done.
    destruct (decide (k = table_key t)) as [->|Hk2].
    { by rewrite !lookup_insert_eq. }
    rewrite !lookup_insert_ne by done.
    by rewrite lookup_delete_ne.
Qed.

Lemma rebuilt_cols_names expected :
  col_name <$> rebuilt_cols expected = "id" :: (fst <$> expected).
Proof.
  unfold rebuilt_cols, migration_defs. cbn. f_equal.
  rewrite <- !list_fmap_compose. by apply list_fmap_ext.
Qed.

Lemma rebuilt_cols_lookup expected j e ty :
  expected !! j = Some (e, ty) →
  rebuilt_cols expected !! S j = Some (Column e ty false false).
Proof.
  intros Hj. unfold rebuilt_cols, migration_defs.
  rewrite lookup_cons, !list_lookup_fmap, Hj. done.
Qed.

Lemma migration_lists_split existing expected :
  ∃ pre presel,
    migration_insert_cols existing expected = pre ++ (fst <$> expected)
    ∧ migration_select existing expected
      = presel ++ ((λ c : string * string,
                      select_expr_of (map_column existing c.1)) <$> expected)
    ∧ length pre = length presel
    ∧ ("id" ∈ existing → pre = ["id"] ∧ presel = [SelColumn "id"])
    ∧ (∀ n, n ∈ pre → n = "id").
Proof.
  unfold migration_insert_cols, migration_select. case_bool_decide.
  - exists ["id"], [SelColumn "id"]. split_and!; try done.
    by intros n ->%list_elem_of_singleton.
  - exists [], []. split_and!; try done. by intros n ?%elem_of_nil.
Qed.

Lemma migration_insert_cols_NoDup existing expected :
  NoDup (lower <$> ("id" :: (fst <$> expected))) →
  NoDup (lower <$> migration_insert_cols existing expected).
Proof.
  unfold migration_insert_cols. case_bool_decide; [done|].
  rewrite fmap_cons. by intros [_ ?]%NoDup_cons.
Qed.

(** One row of the rebuilt table against the old row it was copied
    from. *)
Lemma migrated_row_of_stored existing old_cols expected r vs r' :
  NoDup (lower <$> ("id" :: (fst <$> expected))) →
  eval_selects old_cols r (migration_select existing expected) = Ok vs →
  stored_row (rebuilt_cols expected)
    (zip (migration_insert_cols existing expected) vs) r' →
  migrated_row existing old_cols (rebuilt_cols expected) expected r r'
  ∧ ("id" ∈ existing → keeps_id old_cols (rebuilt_cols expected) r r').
Proof.
  intros Hnd Hsel%eval_selects_Forall2 [Hlen Hst].
  pose proof (migration_insert_cols_NoDup existing expected Hnd) as Hnd'.
  destruct (migration_lists_split existing expected)
    as (pre & presel & Hic & Hse & Hpl & Hid & Hpre).
  assert (NoDup (lower <$> (col_name <$> rebuilt_cols expected))) as Hndc.
  { by rewrite rebuilt_cols_names. }
  split.
  - intros e ty [j Hj]%list_elem_of_lookup.
    pose proof (rebuilt_cols_lookup _ _ _ _ Hj) as Hcol.
    assert (find_col (rebuilt_cols expected) e = Some (S j)) as Hfind.
    { eapply find_col_unique; [done..|]. done. }
    destruct (Hst _ _ Hcol) as (x & Hx & Hplain & _).
    specialize (Hplain eq_refl). cbn in Hplain.
    assert (migration_insert_cols existing expected !! (length pre + j)%nat
            = Some e) as Hname.
    { rewrite Hic, lookup_app_r by lia.
      replace (length pre + j - length pre)%nat with j by lia.
      by rewrite list_lookup_fmap, Hj. }
    assert (migration_select existing expected !! (length pre + j)%nat
            = Some (select_expr_of (map_column existing e))) as Hexpr.
    { rewrite Hse, lookup_app_r by lia.
      replace (length pre + j - length presel)%nat with j by lia.
      by rewrite list_lookup_fmap, Hj. }
    destruct (Forall2_lookup_l _ _ _ _ _ Hsel Hexpr) as (v & Hv & Hev).
    rewrite (assigned_zip _ _ _ _ _ _ Hnd' Hname Hv) in Hplain by done.
    subst x. unfold row_get. rewrite Hfind, Hx.
    rewrite select_expr_of_matched in Hev.
    destruct (matched_column existing e) as [c|]; simpl in Hev.
    + exists v. split; [|done]. unfold row_get in *.
      destruct (find_col old_cols c); [|done].
      by destruct (r !! n); simplify_eq.
    + simplify_eq. by rewrite affinity_null.
  - intros Hin z Hz. destruct (Hid Hin) as [-> ->].
    assert (rebuilt_cols expected !! 0%nat = Some id_column) as Hcol by done.
    assert (find_col (rebuilt_cols expected) "id" = Some 0%nat) as Hfind.
    { eapply find_col_unique; [done..|]. done. }
    destruct (Hst _ _ Hcol) as (x & Hx & _ & Hpk).
    assert (migration_insert_cols existing expected !! 0%nat = Some "id")
      as Hname by by rewrite Hic.
    assert (migration_select existing expected !! 0%nat
            = Some (SelColumn "id")) as Hexpr by by rewrite Hse.
    destruct (Forall2_lookup_l _ _ _ _ _ Hsel Hexpr) as (v & Hv & Hev).
    simpl in Hev. rewrite Hz in Hev. simplify_eq.
    rewrite (assigned_zip _ _ _ _ _ _ Hnd' Hname Hv) in Hpk by done.
    unfold row_get. rewrite Hfind, Hx. f_equal.
    apply Hpk; [done|]. apply affinity_integer.
Qed.

(** The table a successful migration leaves: the expected columns after
    id, and one row per old row, in the same order. *)
Lemma migration_steps_rows existing t expected db d old :
  db !! table_key t = Some old →
  migration_steps existing t expected db = Ok d →
  ∃ new,
    d = <[table_key t := new]> db
    ∧ tbl_cols new = rebuilt_cols expected
    ∧ Forall2 (migrated_row existing (tbl_cols old) (tbl_cols new) expected)
        (tbl_rows old) (tbl_rows new)
    ∧ ("id" ∈ existing →
       Forall2 (keeps_id (tbl_cols old) (tbl_cols new))
         (tbl_rows old) (tbl_rows new)).
Proof.
  intros Hold (old' & vss & new & Hold' & _ & Hnd & Hsel & Hins & ->)
    %migration_steps_Ok.
  simplify_eq. exists new. split; [done|].
  apply insert_rows_stored in Hins as (Hcols & rs & Hrows & Hst).
  cbn in Hcols, Hrows, Hst. fold (rebuilt_cols expected) in Hcols, Hst.
  rewrite Hrows, Hcols. split; [done|].
  apply select_rows_Forall2 in Hsel. rewrite Forall2_fmap_l in Hst.
  assert (Forall2 (λ r r',
            migrated_row existing (tbl_cols old) (rebuilt_cols expected)
              expected r r'
            ∧ ("id" ∈ existing →
               keeps_id (tbl_cols old) (rebuilt_cols expected) r r'))
            (tbl_rows old) rs) as Hall.
  { eapply Forall2_trans; [|exact Hsel|exact Hst].
    intros r vs r' Hev Hs. eapply migrated_row_of_stored; [done|exact Hev|exact Hs]. }
  split.
  - eapply Forall2_impl; [exact Hall|]. by intros r r' [? _].
  - intros Hin. eapply Forall2_impl; [exact Hall|]. intros r r' [_ ?]. auto.
Qed.

End WithRuntime.

End MigrateFacts.

(** ** The rebuild migration: the claims *)

Module MigrateClaims.
Import PyStr PyDict PyDictFacts Sqlite Python Matching MatchingFacts
       DatabaseTracker Observe TrackerFacts AdditiveFacts EnsureFacts
       EngineFacts MigrateRun MigrateFacts.

Lemma executed_Exec l : executed (Exec <$> l) = l.
Proof. unfold executed. induction l as [|s l IH]; [done|]. cbn. by f_equal. Qed.

Lemma not_printed_Exec m l : Printed m ∉ (Exec <$> l : list event).
Proof. intros (s & ? & _)%list_elem_of_fmap. done. Qed.

Section WithRuntime.
Context `{Runtime}.

(** The message of a successful migration is printed exactly when the
    four statements succeed, and then the file holds their result. *)
Lemma migrate_table_schema_migrated db t expected r db' events :
  run (migrate_table_schema t expected) db = (r, db', events) →
  Printed (MsgMigrated t) ∈ events →
  migration_steps (py_set (actual_columns db t)) t expected db = Ok db'.
Proof.
  unfold run.
  destruct (migrate_table_schema_run t expected (State db db false []))
    as (evs & -> & Hevs). cbn in *.
  intros [= <- <- <-].
  destruct (migration_steps _ t expected db) as [d|e]; [done|].
  destruct Hevs as (k & _ & ->). intros Hin. exfalso.
  set_unfold in Hin. naive_solver.
Qed.

(** C4. The rebuild migration is atomic. It executes BEGIN and then the
    four statements rename, create, copy, drop. When all four succeed it
    executes COMMIT and the database file holds their combined result.
    When one of them fails, the statements after it are not executed,
    ROLLBACK is, and the database file, with the schema and the rows of
    every table, is exactly what it was before the call. *)
Theorem migrate_table_schema_atomic db t expected :
  ∃ db' events,
    run (migrate_table_schema t expected) db = (Ok (), db', events)
    ∧ match migration_steps (py_set (actual_columns db t)) t expected db with
      | Ok d =>
          db' = d
          ∧ executed events
            = [PragmaTableInfo t; PragmaForeignKeys false; Begin]
              ++ migration_statements (py_set (actual_columns db t)) t expected
              ++ [Commit; PragmaForeignKeys true]
      | Raise e =>
          db' = db
          ∧ ∃ k, (1 ≤ k ≤ 4)%nat
              ∧ executed events
                = [PragmaTableInfo t; PragmaForeignKeys false; Begin]
                  ++ take k (migration_statements
                               (py_set (actual_columns db t)) t expected)
                  ++ [Rollback; PragmaForeignKeys true]
      end.
Proof.
  unfold run.
  destruct (migrate_table_schema_run t expected (State db db false []))
    as (evs & -> & Hevs). cbn [disk log] in *.
  eexists _, _. split; [done|].
  destruct (migration_steps _ t expected db) as [d|e].
  - split; [done|]. rewrite Hevs, !executed_app, executed_Exec. done.
  - split; [done|]. destruct Hevs as (k & Hk & ->). exists k. split; [done|].
    rewrite !executed_app, executed_Exec. done.
Qed.



End WithRuntime.

End MigrateClaims.

(** ** The record store *)

Module RecordFacts.
Import PyStr PyDict PyDictFacts Sqlite Python Matching MatchingFacts
       DatabaseTracker Forms Observe TrackerFacts AdditiveFacts EnsureFacts
       EngineFacts MigrateRun MigrateFacts MigrateClaims.




Section WithRuntime.
Context `{Runtime}.

Lemma delete_record_run t rid db :
  run (delete_record t rid) db
  = match delete_where_id db t rid with
    | Ok d => (Ok (), d, [Exec (DeleteWhereId t rid)])
    | Raise e => (Raise e, db, [Exec (DeleteWhereId t rid)])
    end.
Proof.
  unfold run, delete_record. py_unfold. cbn.
  by destruct (delete_where_id db t rid).
Qed.



(** [ensure_table_columns] on a table of the registry never raises; it
    leaves the file as it was or holding the result of a successful
    rebuild. *)
Lemma ensure_table_columns_outcome t schema st :
  get expected_schema t = Some schema →
  ∃ st',
    ensure_table_columns t st = (Ok (), st')
    ∧ (disk st' = disk st
       ∨ migration_steps (py_set (actual_columns (disk st) t)) t schema
           (disk st) = Ok (disk st')).
Proof.
  intros Hs. unfold ensure_table_columns. rewrite Hs.
  rewrite bind_run, get_table_columns_run.
  destruct (set_eqb _ _); [by eexists; split; [done|left]|].
  case_bool_decide as Hsub.
  - rewrite bind_run. unfold connect at 1. cbn [disk work in_txn log].
    unfold try_finally. rewrite bind_run.
    rewrite add_missing_columns_nothing_missing.
    + eexists. split; [done|]. by left.
    + intros c Hc. apply Hsub. by apply elem_of_py_set.
  - destruct (migrate_table_schema_run t schema
                (State (disk st) (disk st) false
                       (log st ++ [Exec (PragmaTableInfo t)])))
      as (evs & -> & _). cbn [disk].
    eexists. split; [done|]. cbn [disk].
    destruct (migration_steps _ t schema (disk st)); [by right|by left].
Qed.

(** The facts about a table of the registry that are read off the
    constants of the program. *)
Lemma catalog_table_facts t schema data :
  get expected_schema t = Some schema →
  insert_columns t = fst <$> schema
  ∧ NoDup (lower <$> insert_columns t)
  ∧ (λ f, (field_name f, field_type f)) <$> form_fields t = schema
  ∧ add_record t data
    = try_except
        (try_except (ensure_table_columns t) (λ _, mret ());;
         connect;;
         (execute (InsertValues t (insert_columns t) (record_values t data));;
          mret ());;
         commit;;
         close;;
         mret true)
        (λ e, print (MsgAddRecordError e);; raise e).
Proof.
  intros Hs.
  assert (t ∈ catalog_tables) as Hin by (apply catalog_tables_schema; eauto).
  unfold catalog_tables in Hin. rewrite !elem_of_cons in Hin.
  destruct Hin as [->|[->|[->|[->|[->|Hin]]]]];
    [..|by apply elem_of_nil in Hin];
    cbn in Hs; simplify_eq;
    (split_and!; [done| |done|done]);
    refine (bool_decide_unpack _ _); vm_compute; exact I.
Qed.





End WithRuntime.

End RecordFacts.

(** ** The properties at work on example databases *)

Module Witnesses.
Import PyStr PyDict PyDictFacts Sqlite Python Matching MatchingFacts
       DatabaseTracker Forms Observe Examples TrackerFacts AdditiveFacts
       EnsureFacts EngineFacts MigrateRun MigrateFacts MigrateClaims
       RecordFacts.

#[local] Existing Instance ConcreteRuntime.runtime.

Lemma run_eta {A} (x : result A * database * list event) :
  x = (x.1.1, x.1.2, x.2).
Proof. by destruct x as [[? ?] ?]. Qed.


Lemma ensure_table_columns_additive_keeps_data_witness :
  ∃ db' events tb',
    run (ensure_table_columns "tools") tools_with_notes_db
    = (Ok (), db', events)
    ∧ db' !! table_key "tools" = Some tb'
    ∧ table_keeps_data tools_with_notes tb'.
Proof.
  apply (ensure_table_columns_additive_keeps_data tools_with_notes_db "tools"
           tools_schema tools_with_notes).
  - reflexivity.
  - refine (bool_decide_unpack _ _). vm_compute. exact I.
  - unfold same_columns. refine (bool_decide_unpack _ _). vm_compute. exact I.
  - reflexivity.
Defined.

Lemma ensure_table_columns_additive_is_noop_witness :
  run (ensure_table_columns "tools") tools_with_notes_db
  = (Ok (), tools_with_notes_db, [Exec (PragmaTableInfo "tools")]).
Proof.
  apply (ensure_table_columns_additive_is_noop tools_with_notes_db "tools"
           tools_schema).
  - reflexivity.
  - refine (bool_decide_unpack _ _). vm_compute. exact I.
  - unfold same_columns. refine (bool_decide_unpack _ _). vm_compute. exact I.
Defined.

Lemma ensure_table_columns_unknown_table_witness :
  "notes" ∉ catalog_tables
  ∧ run (ensure_table_columns "notes") fresh_db = (Ok (), fresh_db, []).
Proof.
  assert ("notes" ∉ catalog_tables) as Hn.
  { refine (bool_decide_unpack _ _). vm_compute. exact I. }
  split; [exact Hn|].
  exact (ensure_table_columns_unknown_table fresh_db "notes" Hn).
Defined.

Lemma add_record_unknown_table_witness :
  "notes" ∉ catalog_tables
  ∧ run (add_record "notes" [VText "remember"]) fresh_db
    = (Ok true, fresh_db, []).
Proof.
  assert ("notes" ∉ catalog_tables) as Hn.
  { refine (bool_decide_unpack _ _). vm_compute. exact I. }
  split; [exact Hn|].
  exact (add_record_unknown_table fresh_db "notes" [VText "remember"] Hn).
Defined.







End Witnesses.

(** ** Where the specification says more than the program does *)

Module Counterexamples.
Import PyStr PyDict Sqlite Python Matching DatabaseTracker Forms Observe
       Examples.

#[local] Existing Instance ConcreteRuntime.runtime.



End Counterexamples.

(** ** More on the reconciler: outcomes, frame, repetition *)

Module ReconcileFacts.
Import PyStr PyDict PyDictFacts Sqlite Python Matching MatchingFacts
       DatabaseTracker Forms Observe TrackerFacts AdditiveFacts EnsureFacts
       EngineFacts MigrateRun MigrateFacts MigrateClaims RecordFacts.

Section WithRuntime.
Context `{Runtime}.

(** A rebuild that went through changed the migrated table and nothing
    else: the table existed, the database afterwards is the database
    before with that one table replaced, the new table has the columns id
    and the expected ones and as many rows as the old table, and no table
    of the temporary name is left. *)
Theorem migrate_table_schema_committed_frame db t expected r db' events :
  run (migrate_table_schema t expected) db = (r, db', events) →
  Printed (MsgMigrated t) ∈ events →
  ∃ old new,
    db !! table_key t = Some old
    ∧ db' = <[table_key t := new]> db
    ∧ tbl_cols new = rebuilt_cols expected
    ∧ length (tbl_rows new) = length (tbl_rows old)
    ∧ db' !! table_key (temp_name t) = None.
Proof.
  intros Hrun Hmsg.
  pose proof (migrate_table_schema_migrated _ _ _ _ _ _ Hrun Hmsg) as Hsteps.
  pose proof Hsteps as (old & vss & new0 & Hold & Htmp & _)%migration_steps_Ok.
  destruct (migration_steps_rows _ _ _ _ _ _ Hold Hsteps)
    as (new & -> & Hcols & Hrows & _).
  exists old, new. split_and!; try done.
  - symmetry. by eapply Forall2_length.
  - rewrite lookup_insert_ne; [done|]. intros Heq. by apply (temp_key_ne t).
Qed.

(** The rename is the first of the four statements; when it fails
    nothing else is tried. *)
Lemma migrate_table_schema_rename_fails t expected st e :
  alter_rename (disk st) t (temp_name t) = Raise e →
  migrate_table_schema t expected st
  = (Ok (),
     State (disk st) (disk st) false
       (log st
        ++ [Exec (PragmaTableInfo t); Exec (PragmaForeignKeys false);
            Exec Begin; Exec (AlterTableRename t (temp_name t));
            Exec Rollback; Printed (MsgMigrationFailed t e);
            Exec (PragmaForeignKeys true)])).
Proof.
  intros Hren. unfold migrate_table_schema.
  rewrite bind_run. unfold try_except at 1.
  rewrite bind_run, get_table_columns_run.
  cbn [mret py_ret]. rewrite bind_run. unfold connect at 1.
  cbn [disk work in_txn log]. unfold temp_name in *.
  py_unfold; cbn [disk work in_txn log orb]. rewrite Hren.
  cbn [disk work in_txn log orb]. by rewrite <- !app_assoc.
Qed.

(** Without the table there is nothing to rebuild: the rename fails, the
    transaction is rolled back and the database file is unchanged. *)
Theorem migrate_table_schema_missing_table db t expected :
  db !! table_key t = None →
  run (migrate_table_schema t expected) db
  = (Ok (), db,
     [Exec (PragmaTableInfo t); Exec (PragmaForeignKeys false); Exec Begin;
      Exec (AlterTableRename t (temp_name t)); Exec Rollback;
      Printed (MsgMigrationFailed t NoSuchTable);
      Exec (PragmaForeignKeys true)]).
Proof.
  intros Hno. unfold run.
  rewrite (migrate_table_schema_rename_fails _ _ _ NoSuchTable); [done|].
  cbn [disk]. unfold alter_rename. by rewrite Hno.
Qed.

(** A table that is left over under the temporary name blocks the
    rebuild: the rename fails and the database file is unchanged. *)
Theorem migrate_table_schema_temp_name_taken db t expected old leftover :
  db !! table_key t = Some old →
  db !! table_key (temp_name t) = Some leftover →
  run (migrate_table_schema t expected) db
  = (Ok (), db,
     [Exec (PragmaTableInfo t); Exec (PragmaForeignKeys false); Exec Begin;
      Exec (AlterTableRename t (temp_name t)); Exec Rollback;
      Printed (MsgMigrationFailed t TableExists);
      Exec (PragmaForeignKeys true)]).
Proof.
  intros Hold Htmp. unfold run.
  rewrite (migrate_table_schema_rename_fails _ _ _ TableExists); [done|].
  cbn [disk]. unfold alter_rename. by rewrite Hold, Htmp.
Qed.

(** When the columns of the table are exactly id and the expected ones,
    in any order, [ensure_table_columns] only reads the columns. *)
Lemma ensure_table_columns_exact db t schema :
  get expected_schema t = Some schema →
  same_columns (actual_columns db t) ("id" :: (fst <$> schema)) →
  run (ensure_table_columns t) db = (Ok (), db, [Exec (PragmaTableInfo t)]).
Proof.
  intros Hs Hsame. unfold run, ensure_table_columns. rewrite Hs.
  rewrite bind_run, get_table_columns_run.
  by rewrite (proj2 (set_eqb_py_set _ _) Hsame).
Qed.

(** The two outcomes of [ensure_table_columns] on a registry table. *)
Lemma ensure_table_columns_unchanged_or_rebuilt db t schema :
  get expected_schema t = Some schema →
  ∃ db' events,
    run (ensure_table_columns t) db = (Ok (), db', events)
    ∧ (db' = db
       ∨ ∃ old new,
           db !! table_key t = Some old
           ∧ db' = <[table_key t := new]> db
           ∧ tbl_cols new = rebuilt_cols schema
           ∧ length (tbl_rows new) = length (tbl_rows old)).
Proof.
  intros Hs. unfold run.
  destruct (ensure_table_columns_outcome t schema (State db db false []) Hs)
    as (st' & -> & Hdisk). cbn [disk] in Hdisk.
  exists (disk st'), (log st'). split; [done|].
  destruct Hdisk as [->|Hsteps]; [by left|right].
  pose proof Hsteps as (old & vss & new0 & Hold & _)%migration_steps_Ok.
  destruct (migration_steps_rows _ _ _ _ _ _ Hold Hsteps)
    as (new & -> & Hcols & Hrows & _).
  exists old, new. split_and!; try done.
  symmetry. by eapply Forall2_length.
Qed.

(** [ensure_table_columns] on a table of the registry never raises, and
    it leaves the database file either as it was or with that one table
    rebuilt to the columns id and the expected ones. *)
Theorem ensure_table_columns_outcomes db t schema :
  get expected_schema t = Some schema →
  ∃ db' events,
    run (ensure_table_columns t) db = (Ok (), db', events)
    ∧ (db' = db
       ∨ ∃ old new,
           db !! table_key t = Some old
           ∧ db' = <[table_key t := new]> db
           ∧ tbl_cols new = rebuilt_cols schema
           ∧ length (tbl_rows new) = length (tbl_rows old)).
Proof. exact (ensure_table_columns_unchanged_or_rebuilt db t schema). Qed.

(** Running [ensure_table_columns] a second time changes nothing: a
    table that was rebuilt has exactly the expected columns, and a table
    that was left alone is left alone again. *)
Theorem ensure_table_columns_idempotent db t :
  (run (ensure_table_columns t)
     (run (ensure_table_columns t) db).1.2).1.2
  = (run (ensure_table_columns t) db).1.2.
Proof.
  destruct (get expected_schema t) as [schema|] eqn:Hs.
  - destruct (ensure_table_columns_unchanged_or_rebuilt db t schema Hs)
      as (db' & events & Hrun & Hout).
    rewrite Hrun. cbn [fst snd].
    destruct Hout as [->|(old & new & Hold & -> & Hcols & _)].
    + by rewrite Hrun.
    + rewrite (ensure_table_columns_exact _ t schema Hs); [done|].
      unfold actual_columns. rewrite lookup_insert_eq, Hcols.
      rewrite rebuilt_cols_names. by split.
  - assert (∀ d, run (ensure_table_columns t) d = (Ok (), d, [])) as Hno.
    { intros d. unfold run, ensure_table_columns. by rewrite Hs. }
    by rewrite !Hno.
Qed.

End WithRuntime.

End ReconcileFacts.

(** ** More on the column-name matching *)

Module MatchingMore.
Import PyStr PyDict PyDictFacts Sqlite Python Matching MatchingFacts
       DatabaseTracker Observe.

(** [map_column] tries the five strategies in turn. *)
Lemma map_column_strategies existing expected_name :
  map_column existing expected_name
  = match match_exact existing expected_name with
    | Some c => Some c
    | None =>
        match match_case_insensitive existing expected_name with
        | Some c => Some c
        | None =>
            match match_normalized existing expected_name with
            | Some c => Some c
            | None =>
                match match_alias existing expected_name with
                | Some c => Some c
                | None => match_fuzzy existing expected_name
                end
            end
        end
    end.
Proof.
  unfold map_column, first_success.
  unfold match_exact at 1. case_bool_decide; [done|].
  rewrite if_mem_get. fold (match_case_insensitive existing expected_name).
  destruct (match_case_insensitive existing expected_name); [done|].
  rewrite if_mem_get. fold (match_normalized existing expected_name).
  destruct (match_normalized existing expected_name); [done|].
  assert (match PyDict.get alias_map (normalize expected_name) with
          | Some target =>
              if mem (comprehension normalize existing) (normalize target)
              then get (comprehension normalize existing) (normalize target)
              else None
          | None => None
          end = match_alias existing expected_name) as ->.
  { unfold match_alias. case_match; [|done]. rewrite if_mem_get.
    by case_match. }
  destruct (match_alias existing expected_name) as [c|] eqn:Ha.
  - by rewrite (match_alias_truthy _ _ _ Ha).
  - simpl. rewrite fuzzy_loop_find. unfold match_fuzzy.
    by destruct (List.find _ _).
Qed.

(** Whatever strategy answers, the answer is a column of the old table. *)
Lemma map_column_result_elem_of existing e c :
  map_column existing e = Some c → c ∈ existing.
Proof.
  rewrite map_column_strategies. intros Hm.
  apply (map_column_elem_of existing e c). simpl. rewrite <- Hm.
  by repeat case_match.
Qed.








(** A matched column is a column of the old table with a name. *)
Lemma matched_column_elem_of existing e c :
  matched_column existing e = Some c →
  c ∈ existing ∧ nonempty c = true.
Proof.
  unfold matched_column.
  destruct (map_column existing e) as [c'|] eqn:Hm; [|done].
  destruct (nonempty c') eqn:Hne; [|done]. intros [= <-]. split; [|done].
  by eapply map_column_result_elem_of.
Qed.

(** The column that the copy reads for an expected column is always a
    column of the old table, and its name is not empty. *)
Theorem matched_column_is_existing existing e c :
  matched_column existing e = Some c →
  c ∈ existing ∧ nonempty c = true.
Proof. exact (matched_column_elem_of existing e c). Qed.


End MatchingMore.

(** ** More on the record store: errors and edge cases *)

Module RecordMore.
Import PyStr PyDict PyDictFacts Sqlite Python Matching MatchingFacts
       DatabaseTracker Forms Observe TrackerFacts AdditiveFacts EnsureFacts
       EngineFacts MigrateRun MigrateFacts MigrateClaims RecordFacts
       ReconcileFacts.

Section WithRuntime.
Context `{Runtime}.


(** When [delete_record] raises, the database file is as it was. *)
Theorem delete_record_raise_changes_nothing db t rid e db' events :
  run (delete_record t rid) db = (Raise e, db', events) → db' = db.
Proof.
  rewrite delete_record_run. destruct (delete_where_id db t rid); [done|].
  by intros [= _ <- _].
Qed.

(** [delete_record] with [None] as the record id deletes no row, whatever
    the table holds: a comparison with NULL is never true. *)
Theorem delete_record_null_id db t tb :
  db !! table_key t = Some tb →
  is_Some (find_col (tbl_cols tb) "id") →
  run (delete_record t VNull) db
  = (Ok (), db, [Exec (DeleteWhereId t VNull)]).
Proof.
  intros Htb [i Hi]. rewrite delete_record_run. unfold delete_where_id.
  rewrite Htb. unfold find_col in Hi.
  destruct (list_find _ (tbl_cols tb)) as [[i' c]|]; [|done].
  assert (List.filter
            (λ r : row, negb (id_matches c (default VNull (r !! i')) VNull))
            (tbl_rows tb) = tbl_rows tb) as ->.
  { induction (tbl_rows tb) as [|r rs IH]; [done|]. cbn.
    unfold id_matches at 1. rewrite affinity_null. cbn. by rewrite IH. }
  do 2 f_equal. destruct tb. cbn. by apply insert_id.
Qed.


(** [add_record] as the reconciler followed by one INSERT. *)
Lemma add_record_ensure_insert db t schema data :
  get expected_schema t = Some schema →
  ∃ events,
    run (add_record t data) db
    = match insert_values (run (ensure_table_columns t) db).1.2 t
              (insert_columns t) (record_values t data) with
      | Ok d => (Ok true, d, events)
      | Raise e => (Raise e, (run (ensure_table_columns t) db).1.2, events)
      end.
Proof.
  intros Hs. destruct (catalog_table_facts t schema data Hs) as (_ & _ & _ & ->).
  unfold run.
  destruct (ensure_table_columns_outcome t schema (State db db false []) Hs)
    as (st1 & Hens & _).
  unfold try_except. rewrite bind_run. rewrite Hens. rewrite bind_run.
  unfold connect at 1. cbn [disk work in_txn log fst snd].
  rewrite !bind_run. unfold execute at 1. unfold run_update.
  cbn [disk work in_txn log orb].
  destruct (insert_values (disk st1) t _ _) as [w|e] eqn:Eins.
  - cbn. by eexists.
  - cbn. by eexists.
Qed.

(** [add_record] on a table of the registry is [ensure_table_columns]
    followed by the INSERT: when the INSERT succeeds the result is [True]
    and the row is committed; when it fails the exception is raised and
    the database file is what [ensure_table_columns] left, a rebuild
    included. *)
Theorem add_record_is_ensure_then_insert db t schema data :
  get expected_schema t = Some schema →
  ∃ events,
    run (add_record t data) db
    = match insert_values (run (ensure_table_columns t) db).1.2 t
              (insert_columns t) (record_values t data) with
      | Ok d => (Ok true, d, events)
      | Raise e => (Raise e, (run (ensure_table_columns t) db).1.2, events)
      end.
Proof. exact (add_record_ensure_insert db t schema data). Qed.


End WithRuntime.

End RecordMore.

(** ** Adding a record to a table in its created shape *)

Module InsertFacts.
Import PyStr PyDict PyDictFacts Sqlite Python Matching MatchingFacts
       DatabaseTracker Forms Observe Shapes TrackerFacts AdditiveFacts
       EnsureFacts EngineFacts MigrateRun MigrateFacts MigrateClaims
       RecordFacts ReconcileFacts RecordMore.







Section WithRuntime.
Context `{Runtime}.









End WithRuntime.

End InsertFacts.

(** ** When the rebuild goes through *)

Module CommitFacts.
Import PyStr PyDict PyDictFacts Sqlite Python Matching MatchingFacts
       DatabaseTracker Forms Observe Shapes TrackerFacts AdditiveFacts
       EnsureFacts EngineFacts MigrateRun MigrateFacts MigrateClaims
       RecordFacts ReconcileFacts RecordMore InsertFacts MatchingMore.






Section WithRuntime.
Context `{Runtime}.









End WithRuntime.

End CommitFacts.

(** ** [init_database] *)

Module InitFacts.
Import PyStr PyDict PyDictFacts Sqlite Python Matching MatchingFacts
       DatabaseTracker Forms Observe Shapes TrackerFacts AdditiveFacts
       EnsureFacts EngineFacts MigrateRun MigrateFacts MigrateClaims
       RecordFacts ReconcileFacts RecordMore InsertFacts MatchingMore
       CommitFacts.

Lemma keeps_tables_refl db : keeps_tables db db.
Proof. by intros k. Qed.

Lemma keeps_tables_trans db1 db2 db3 :
  keeps_tables db1 db2 → keeps_tables db2 db3 → keeps_tables db1 db3.
Proof. intros H12 H23 k Hk. by apply H23, H12. Qed.

Lemma keeps_tables_insert db k tb : keeps_tables db (<[k := tb]> db).
Proof.
  intros k' Hk'. destruct (decide (k = k')) as [->|Hne].
  - rewrite lookup_insert_eq. by eexists.
  - by rewrite lookup_insert_ne.
Qed.

Section WithRuntime.
Context `{Runtime}.

(** CREATE TABLE IF NOT EXISTS on a connection without open transaction:
    it never fails for column names that differ pairwise, the table
    exists afterwards and no table is lost. *)
Lemma execute_create_if_not_exists st t defs :
  idle st →
  NoDup (lower <$> ("id" :: ((λ d : column_def, d.1.1) <$> defs))) →
  ∃ st',
    execute (CreateTable true t defs) st = (Ok [], st')
    ∧ idle st'
    ∧ keeps_tables (disk st) (disk st')
    ∧ is_Some (disk st' !! table_key t).
Proof.
  intros [Htxn Hwork] Hnd. unfold execute, run_update, create_table.
  cbn [disk work in_txn log]. rewrite Htxn, Hwork. cbn [orb].
  destruct (disk st !! table_key t) as [tb|] eqn:Et.
  - eexists. split; [reflexivity|]. cbn.
    split_and!;
      first [done | by eexists | apply keeps_tables_refl].
  - rewrite bool_decide_true by done.
    eexists. split; [reflexivity|]. cbn.
    split_and!;
      first [done | rewrite lookup_insert_eq; by eexists
            | apply keeps_tables_insert].
Qed.

(** [ensure_table_columns] never raises and never loses a table. *)
Lemma ensure_table_columns_keeps_tables t st :
  ∃ st',
    ensure_table_columns t st = (Ok (), st')
    ∧ keeps_tables (disk st) (disk st').
Proof.
  destruct (get expected_schema t) as [schema|] eqn:Hs.
  - destruct (ensure_table_columns_outcome t schema st Hs)
      as (st' & Hrun & Hdisk).
    exists st'. split; [done|]. destruct Hdisk as [->|Hsteps].
    + apply keeps_tables_refl.
    + apply migration_steps_Ok in Hsteps as (? & ? & new & _ & _ & _ & _ & _ & ->).
      apply keeps_tables_insert.
  - exists st. unfold ensure_table_columns. rewrite Hs. split; [done|].
    apply keeps_tables_refl.
Qed.

Lemma for_each_ensure_keeps_tables ts st :
  ∃ st',
    for_each ts ensure_table_columns st = (Ok (), st')
    ∧ keeps_tables (disk st) (disk st').
Proof.
  revert st. induction ts as [|t ts IH]; intros st.
  - exists st. split; [done|]. apply keeps_tables_refl.
  - rewrite for_each_cons.
    destruct (ensure_table_columns_keeps_tables t st) as (st1 & -> & H1).
    destruct (IH st1) as (st' & -> & H2).
    exists st'. split; [done|]. by eapply keeps_tables_trans.
Qed.

Ltac create_step Hidle st' Hidle' Hk He :=
  rewrite bind_run;
  match goal with
  | |- context [execute (CreateTable true ?t ?defs) ?st] =>
      destruct (execute_create_if_not_exists st t defs Hidle)
        as (st' & -> & Hidle' & Hk & He);
      [refine (bool_decide_unpack _ _); vm_compute; exact I|]
  end.

(** [init_database] never raises, whatever the database file holds;
    afterwards each of the five catalog tables exists, and every table
    that existed before still exists. *)
Theorem init_database_tables_exist db :
  ∃ db' events,
    run init_database db = (Ok (), db', events)
    ∧ (∀ t, t ∈ catalog_tables → is_Some (db' !! table_key t))
    ∧ keeps_tables db db'.
Proof.
  unfold run, init_database.
  rewrite bind_run. unfold connect at 1. cbn [disk work in_txn log].
  assert (idle (State db db false [])) as Hidle0 by done.
  create_step Hidle0 st1 Hidle1 Hk1 He1.
  create_step Hidle1 st2 Hidle2 Hk2 He2.
  create_step Hidle2 st3 Hidle3 Hk3 He3.
  create_step Hidle3 st4 Hidle4 Hk4 He4.
  create_step Hidle4 st5 Hidle5 Hk5 He5.
  destruct Hidle5 as [Htxn5 Hwork5].
  rewrite bind_run. unfold commit at 1. rewrite Htxn5.
  rewrite bind_run. unfold close at 1.
  unfold try_except.
  destruct (for_each_ensure_keeps_tables catalog_tables
              (State (disk st5) (disk st5) false (log st5)))
    as (st6 & -> & Hk6). cbn [disk] in *.
  eexists _, _. split; [reflexivity|].
  assert (keeps_tables (disk st1) (disk st6)) as Hk16.
  { repeat (eapply keeps_tables_trans; [eassumption|]).
    apply keeps_tables_refl. }
  split.
  - intros t Ht. unfold catalog_tables in Ht. rewrite !elem_of_cons in Ht.
    destruct Ht as [->|[->|[->|[->|[->|Ht]]]]];
      [..|by apply elem_of_nil in Ht].
    + by apply Hk16.
    + by apply Hk6, Hk5, Hk4, Hk3.
    + by apply Hk6, Hk5, Hk4.
    + by apply Hk6, Hk5.
    + by apply Hk6.
  - eapply keeps_tables_trans; [exact Hk1|exact Hk16].
Qed.

(** CREATE TABLE IF NOT EXISTS touches no other table, and a table that
    it creates has the declared columns and no row. *)
Lemma execute_create_frame st t defs :
  idle st →
  NoDup (lower <$> ("id" :: ((λ d : column_def, d.1.1) <$> defs))) →
  ∃ st',
    execute (CreateTable true t defs) st = (Ok [], st')
    ∧ idle st'
    ∧ (∀ k, k ≠ table_key t → disk st' !! k = disk st !! k)
    ∧ (disk st !! table_key t = None →
       disk st' !! table_key t
       = Some (Table (id_column :: (def_column <$> defs)) [] (Some 0%Z))).
Proof.
  intros [Htxn Hwork] Hnd. unfold execute, run_update, create_table.
  cbn [disk work in_txn log]. rewrite Htxn, Hwork. cbn [orb].
  destruct (disk st !! table_key t) as [tb|] eqn:Et.
  - eexists. split; [reflexivity|]. cbn.
    split; [by split|]. split; [done|]. by rewrite Et.
  - rewrite bool_decide_true by done.
    eexists. split; [reflexivity|]. cbn.
    split; [by split|]. split.
    + intros k Hk. by rewrite lookup_insert_ne.
    + intros _. by rewrite lookup_insert_eq.
Qed.

(** [ensure_table_columns t] touches no other table. *)
Lemma ensure_table_columns_frame t st :
  ∃ st',
    ensure_table_columns t st = (Ok (), st')
    ∧ ∀ k, k ≠ table_key t → disk st' !! k = disk st !! k.
Proof.
  destruct (get expected_schema t) as [schema|] eqn:Hs.
  - destruct (ensure_table_columns_outcome t schema st Hs)
      as (st' & Hrun & Hdisk).
    exists st'. split; [done|]. destruct Hdisk as [->|Hsteps]; [done|].
    apply migration_steps_Ok in Hsteps as (? & ? & new & _ & _ & _ & _ & _ & ->).
    intros k Hk. by rewrite lookup_insert_ne.
  - exists st. unfold ensure_table_columns. rewrite Hs. by split.
Qed.

(** [ensure_table_columns t] changes nothing when the table has exactly
    the columns id and the expected ones. *)
Lemma ensure_table_columns_exact_state t st schema :
  get expected_schema t = Some schema →
  same_columns (actual_columns (disk st) t) ("id" :: (fst <$> schema)) →
  ∃ st', ensure_table_columns t st = (Ok (), st') ∧ disk st' = disk st.
Proof.
  intros Hs Hsame. unfold ensure_table_columns. rewrite Hs.
  rewrite bind_run, get_table_columns_run.
  rewrite (proj2 (set_eqb_py_set _ _) Hsame). by eexists.
Qed.

(** The loop over the catalog tables at the end of [init_database]
    leaves alone a table that has exactly the expected columns. *)
Lemma for_each_ensure_keeps_exact ts st t schema tb :
  get expected_schema t = Some schema →
  (∀ t', t' ∈ ts → table_key t' = table_key t → t' = t) →
  disk st !! table_key t = Some tb →
  same_columns (col_name <$> tbl_cols tb) ("id" :: (fst <$> schema)) →
  ∃ st',
    for_each ts ensure_table_columns st = (Ok (), st')
    ∧ disk st' !! table_key t = Some tb.
Proof.
  intros Hs Hkeys. revert st.
  induction ts as [|t' ts IH]; intros st Htb Hsame.
  - by exists st.
  - rewrite for_each_cons.
    assert (∃ st1, ensure_table_columns t' st = (Ok (), st1)
                   ∧ disk st1 !! table_key t = Some tb)
      as (st1 & -> & Htb1).
    { destruct (decide (table_key t' = table_key t)) as [Heq|Hne].
      - assert (t' = t) as -> by (apply Hkeys; [left|done]).
        destruct (ensure_table_columns_exact_state t st schema Hs)
          as (st1 & Hrun & Hdisk).
        { unfold actual_columns. by rewrite Htb. }
        exists st1. by rewrite Hdisk.
      - destruct (ensure_table_columns_frame t' st) as (st1 & Hrun & Hframe).
        exists st1. split; [done|]. by rewrite Hframe. }
    apply IH; [|done|done].
    intros t'' Hin. apply Hkeys. by right.
Qed.

Ltac create_frame Hidle st' Hidle' Hf Hc :=
  rewrite bind_run;
  match goal with
  | |- context [execute (CreateTable true ?t ?defs) ?st] =>
      destruct (execute_create_frame st t defs Hidle)
        as (st' & -> & Hidle' & Hf & Hc);
      [refine (bool_decide_unpack _ _); vm_compute; exact I|]
  end.

(** A catalog table that the database file lacks is created by
    [init_database] with the column id followed by one column per form
    field, and without rows; the calls of [ensure_table_columns] that
    follow leave it so, whatever they do to the other tables. *)
Theorem init_database_creates_missing_table db t :
  t ∈ catalog_tables →
  db !! table_key t = None →
  ∃ db' events tb,
    run init_database db = (Ok (), db', events)
    ∧ db' !! table_key t = Some tb
    ∧ created_shape t (tbl_cols tb)
    ∧ tbl_rows tb = [].
Proof.
  intros Ht Hnone. unfold run, init_database.
  rewrite bind_run. unfold connect at 1. cbn [disk work in_txn log].
  assert (idle (State db db false [])) as Hidle0 by done.
  create_frame Hidle0 st1 Hidle1 Hf1 Hc1.
  create_frame Hidle1 st2 Hidle2 Hf2 Hc2.
  create_frame Hidle2 st3 Hidle3 Hf3 Hc3.
  create_frame Hidle3 st4 Hidle4 Hf4 Hc4.
  create_frame Hidle4 st5 Hidle5 Hf5 Hc5.
  destruct Hidle5 as [Htxn5 Hwork5].
  rewrite bind_run. unfold commit at 1. rewrite Htxn5.
  rewrite bind_run. unfold close at 1.
  unfold try_except. cbn [disk] in *.
  assert (∃ schema tb,
            get expected_schema t = Some schema
            ∧ disk st5 !! table_key t = Some tb
            ∧ same_columns (col_name <$> tbl_cols tb)
                ("id" :: (fst <$> schema))
            ∧ created_shape t (tbl_cols tb)
            ∧ tbl_rows tb = [])
    as (schema & tb & Hs & Htb & Hsame & Hshape & Hrows).
  { unfold catalog_tables in Ht. rewrite !elem_of_cons in Ht.
    destruct Ht as [->|[->|[->|[->|[->|Ht]]]]];
      [..|by apply elem_of_nil in Ht];
      (eexists _, _; split; [reflexivity|]; split;
       [rewrite ?Hf5, ?Hf4, ?Hf3, ?Hf2, ?Hf1 by done;
        first [apply Hc1 | apply Hc2 | apply Hc3 | apply Hc4 | apply Hc5];
        rewrite ?Hf5, ?Hf4, ?Hf3, ?Hf2, ?Hf1 by done; exact Hnone|]);
      (split; [split; set_solver|]);
      (split; [|done]);
      (eexists; split; [reflexivity|]);
      repeat (constructor; [by repeat split|]); constructor. }
  destruct (for_each_ensure_keeps_exact catalog_tables
              (State (disk st5) (disk st5) false (log st5)) t schema tb Hs)
    as (st6 & -> & Htb6); [|done|done|].
  { intros t' Ht' Hkey. unfold catalog_tables in Ht, Ht'.
    rewrite !elem_of_cons in Ht, Ht'.
    destruct Ht as [->|[->|[->|[->|[->|Ht]]]]];
      [..|by apply elem_of_nil in Ht];
      destruct Ht' as [->|[->|[->|[->|[->|Ht']]]]];
      try (by apply elem_of_nil in Ht'); done. }
  by eexists _, _, tb.
Qed.

End WithRuntime.

End InitFacts.

(** ** The form: what [save_record] hands to [add_record] *)

Module FormFacts.
Import PyStr PyDict Sqlite Forms SaveRecord.

Section WithInt.
Variable py_int : string → option Z.

Lemma read_values_inl controls fields values :
  read_values py_int controls fields = inl values →
  Forall2 (value_read py_int controls) fields values.
Proof.
  revert values. induction fields as [|f fields IH]; intros values; simpl.
  - intros [= <-]. constructor.
  - assert (∀ v, value_read py_int controls f v →
              append_value v (read_values py_int controls fields)
              = inl values →
              Forall2 (value_read py_int controls) (f :: fields) values) as Hstep.
    { intros v Hv. destruct (read_values py_int controls fields); [|done].
      intros [= <-]. constructor; [done|]. by apply IH. }
    unfold value_read in Hstep.
    destruct (field_number f) eqn:Hnum.
    + case_bool_decide as Hne.
      * destruct (py_int (control_value controls f)) as [z|] eqn:Hz; [|done].
        apply Hstep. right. eauto.
      * apply Hstep. left. split; [|done].
        by destruct (decide (control_value controls f = "")).
    + by apply Hstep.
Qed.

Lemma first_missing_None fields values :
  length fields = length values →
  first_missing fields values = None →
  Forall2 (λ f v, field_required f = true → v ≠ VNull ∧ v ≠ VText "")
    fields values.
Proof.
  revert values. induction fields as [|f fields IH]; intros [|v values];
    simpl; try done.
  intros [= Hlen].
  destruct (field_required f) eqn:Hreq; cbn [andb].
  - destruct (bool_decide (v = VNull) || bool_decide (v = VText "")) eqn:E;
        [done|].
    apply orb_false_iff in E
      as [E1%bool_decide_eq_false E2%bool_decide_eq_false].
    intros Hrest. constructor; [done|]. by apply IH.
  - intros Hrest. constructor; [by rewrite Hreq|]. by apply IH.
Qed.

(** Whatever is typed into the form, the values that [save_record]
    passes to [add_record] fit the fields: one value per field, an
    integer or [None] for a number field and a string for any other, and
    never [None] or the empty string for a required field. *)
Theorem save_record_values_fit_fields controls fields values :
  save_record py_int controls fields = CallsAddRecord values →
  Forall2 field_ok fields values.
Proof.
  unfold save_record.
  destruct (read_values py_int controls fields) as [vs|] eqn:Hread; [|done].
  destruct (first_missing fields vs) eqn:Hmiss; [done|].
  intros [= ->]. apply read_values_inl in Hread.
  apply first_missing_None in Hmiss; [|by eapply Forall2_length].
  revert Hread Hmiss. generalize fields values. clear.
  induction 1 as [|f v fs vs Hv _ IH]; intros Hreq; [constructor|].
  apply Forall2_cons_1 in Hreq as [Hr Hreq].
  constructor; [|by apply IH]. split; [|done].
  unfold value_read in Hv. destruct (field_number f); [|by eexists].
  destruct Hv as [[_ ->]|(_ & z & _ & ->)]; [by left|right; by eexists].
Qed.

(** A required field that is left empty stops [save_record]: it never
    calls [add_record] then. *)
Theorem save_record_required_field_empty controls fields f values :
  f ∈ fields →
  field_required f = true →
  control_value controls f = "" →
  save_record py_int controls fields ≠ CallsAddRecord values.
Proof.
  intros Hin Hreq Hempty. unfold save_record.
  destruct (read_values py_int controls fields) as [vs|] eqn:Hread; [|done].
  destruct (first_missing fields vs) eqn:Hmiss; [done|].
  intros _. apply read_values_inl in Hread.
  apply first_missing_None in Hmiss; [|by eapply Forall2_length].
  apply list_elem_of_lookup in Hin as [i Hi].
  destruct (Forall2_lookup_l _ _ _ _ _ Hread Hi) as (v & Hv & Hval).
  destruct (Forall2_lookup_lr _ _ _ _ _ _ Hmiss Hi Hv Hreq) as [Hnull Htext].
  unfold value_read in Hval. rewrite Hempty in Hval.
  destruct (field_number f); naive_solver.
Qed.

(** Text in a number field that [int] does not accept stops
    [save_record] as well. *)
Theorem save_record_number_field_no_number controls fields f values :
  f ∈ fields →
  field_number f = true →
  control_value controls f ≠ "" →
  py_int (control_value controls f) = None →
  save_record py_int controls fields ≠ CallsAddRecord values.
Proof.
  intros Hin Hnum Hne Hint. unfold save_record.
  destruct (read_values py_int controls fields) as [vs|] eqn:Hread; [|done].
  apply read_values_inl in Hread.
  apply list_elem_of_lookup in Hin as [i Hi].
  destruct (Forall2_lookup_l _ _ _ _ _ Hread Hi) as (v & Hv & Hval).
  unfold value_read in Hval. rewrite Hnum, Hint in Hval. naive_solver.
Qed.

End WithInt.

End FormFacts.

(** ** The further properties at work on example data *)

Module MoreWitnesses.
Import PyStr PyDict PyDictFacts Sqlite Python Matching MatchingFacts
       DatabaseTracker Forms Observe Shapes SaveRecord Examples MoreExamples
       TrackerFacts AdditiveFacts EnsureFacts EngineFacts MigrateRun
       MigrateFacts MigrateClaims RecordFacts ReconcileFacts MatchingMore
       RecordMore InsertFacts CommitFacts InitFacts FormFacts Witnesses.

#[local] Existing Instance ConcreteRuntime.runtime.







Lemma migrate_table_schema_committed_frame_witness :
  ∃ old new,
    old_builds_db !! table_key "builds" = Some old
    ∧ (run (migrate_table_schema "builds" builds_schema) old_builds_db).1.2
      = <[table_key "builds" := new]> old_builds_db
    ∧ tbl_cols new = rebuilt_cols builds_schema
    ∧ length (tbl_rows new) = length (tbl_rows old)
    ∧ (run (migrate_table_schema "builds" builds_schema) old_builds_db).1.2
        !! table_key (temp_name "builds") = None.
Proof.
  apply (migrate_table_schema_committed_frame old_builds_db "builds"
           builds_schema
           (run (migrate_table_schema "builds" builds_schema)
              old_builds_db).1.1
           (run (migrate_table_schema "builds" builds_schema)
              old_builds_db).1.2
           (run (migrate_table_schema "builds" builds_schema)
              old_builds_db).2).
  - apply run_eta.
  - apply list_elem_of_lookup. exists 8%nat. vm_compute. reflexivity.
Defined.

Lemma migrate_table_schema_missing_table_witness :
  run (migrate_table_schema "builds" builds_schema) one_tool_db
  = (Ok (), one_tool_db,
     [Exec (PragmaTableInfo "builds"); Exec (PragmaForeignKeys false);
      Exec Begin; Exec (AlterTableRename "builds" (temp_name "builds"));
      Exec Rollback; Printed (MsgMigrationFailed "builds" NoSuchTable);
      Exec (PragmaForeignKeys true)]).
Proof.
  apply (migrate_table_schema_missing_table one_tool_db "builds"
           builds_schema).
  reflexivity.
Defined.

Lemma migrate_table_schema_temp_name_taken_witness :
  run (migrate_table_schema "builds" builds_schema) interrupted_db
  = (Ok (), interrupted_db,
     [Exec (PragmaTableInfo "builds"); Exec (PragmaForeignKeys false);
      Exec Begin; Exec (AlterTableRename "builds" (temp_name "builds"));
      Exec Rollback; Printed (MsgMigrationFailed "builds" TableExists);
      Exec (PragmaForeignKeys true)]).
Proof.
  apply (migrate_table_schema_temp_name_taken interrupted_db "builds"
           builds_schema old_builds old_builds).
  - vm_compute. reflexivity.
  - vm_compute. reflexivity.
Defined.

Lemma ensure_table_columns_outcomes_witness :
  ∃ db' events,
    run (ensure_table_columns "builds") old_builds_db = (Ok (), db', events)
    ∧ (db' = old_builds_db
       ∨ ∃ old new,
           old_builds_db !! table_key "builds" = Some old
           ∧ db' = <[table_key "builds" := new]> old_builds_db
           ∧ tbl_cols new = rebuilt_cols builds_schema
           ∧ length (tbl_rows new) = length (tbl_rows old)).
Proof.
  apply (ensure_table_columns_outcomes old_builds_db "builds" builds_schema).
  reflexivity.
Defined.

Lemma matched_column_is_existing_witness :
  "Name" ∈ ["id"; "Name"] ∧ nonempty "Name" = true.
Proof.
  apply (matched_column_is_existing ["id"; "Name"] "name" "Name").
  vm_compute. reflexivity.
Defined.


Lemma delete_record_raise_changes_nothing_witness :
  (run (delete_record "builds" (VInt 1)) one_tool_db).1.2 = one_tool_db.
Proof.
  apply (delete_record_raise_changes_nothing one_tool_db "builds" (VInt 1)
           NoSuchTable
           (run (delete_record "builds" (VInt 1)) one_tool_db).1.2
           (run (delete_record "builds" (VInt 1)) one_tool_db).2).
  vm_compute. reflexivity.
Defined.

Lemma delete_record_null_id_witness :
  run (delete_record "tools" VNull) one_tool_db
  = (Ok (), one_tool_db, [Exec (DeleteWhereId "tools" VNull)]).
Proof.
  apply (delete_record_null_id one_tool_db "tools" one_tool).
  - reflexivity.
  - eexists. reflexivity.
Defined.

Lemma add_record_is_ensure_then_insert_witness :
  ∃ events,
    run (add_record "tools" a_tool) one_tool_db
    = match insert_values
              (run (ensure_table_columns "tools") one_tool_db).1.2 "tools"
              (insert_columns "tools") (record_values "tools" a_tool) with
      | Ok d => (Ok true, d, events)
      | Raise e =>
          (Raise e, (run (ensure_table_columns "tools") one_tool_db).1.2,
           events)
      end.
Proof.
  apply (add_record_is_ensure_then_insert one_tool_db "tools" tools_schema
           a_tool).
  reflexivity.
Defined.







Lemma init_database_creates_missing_table_witness :
  ∃ db' events tb,
    run init_database one_tool_db = (Ok (), db', events)
    ∧ db' !! table_key "builds" = Some tb
    ∧ created_shape "builds" (tbl_cols tb)
    ∧ tbl_rows tb = [].
Proof.
  apply (init_database_creates_missing_table one_tool_db "builds").
  - refine (bool_decide_unpack _ _). vm_compute. exact I.
  - reflexivity.
Defined.

Lemma save_record_values_fit_fields_witness :
  Forall2 field_ok (form_fields "builds") a_build.
Proof.
  apply (save_record_values_fit_fields ConcreteRuntime.parse_integer
           filled_form (form_fields "builds") a_build).
  vm_compute. reflexivity.
Defined.

Lemma save_record_required_field_empty_witness :
  save_record ConcreteRuntime.parse_integer untouched_form
    (form_fields "tools")
  ≠ CallsAddRecord [VText ""; VText ""; VText ""; VText ""].
Proof.
  apply (save_record_required_field_empty ConcreteRuntime.parse_integer
           untouched_form (form_fields "tools") (Field "name" true false)).
  - apply list_elem_of_lookup. exists 0%nat. reflexivity.
  - reflexivity.
  - reflexivity.
Defined.

Lemma save_record_number_field_no_number_witness :
  save_record ConcreteRuntime.parse_integer roman_year_form
    (form_fields "builds")
  ≠ CallsAddRecord a_build.
Proof.
  apply (save_record_number_field_no_number ConcreteRuntime.parse_integer
           roman_year_form (form_fields "builds") (Field "year" false true)).
  - apply list_elem_of_lookup. exists 2%nat. reflexivity.
  - reflexivity.
  - refine (bool_decide_unpack _ _). vm_compute. exact I.
  - reflexivity.
Defined.

End MoreWitnesses.
